(** * The video-game ETL pipeline: extract, transform, validate, load

    A shallow embedding of the five modules of the [etl] package
    ([extract.py], [transform.py], [validate.py], [load.py], [main.py]).

    The Python functions print, raise, and talk to the file system, to Google
    Drive, to a SQLite credential store and to a PostgreSQL sink.  They are
    embedded as computations in a state-and-exception monad [M] over an
    abstract world: the external collaborators are the operations of the
    class [Externals], and a run is a function from a state (world, console)
    to an outcome and a new state. *)

From Stdlib Require Import ZArith QArith String Ascii List Lia Bool.
From stdpp Require Import base list strings gmap.

Local Open Scope string_scope.
Local Open Scope Z_scope.

(** ** Python strings

    A [str] is modelled by a [string] whose characters are the code points
    U+0000..U+00FF; [str.strip], [str.lower] and [str.replace] are Python's
    on that range. *)

Module PyStr.

Definition between (lo hi n : nat) : bool := (lo <=? n)%nat && (n <=? hi)%nat.

(** [str.isspace] for one character: TAB..CR, FS..US, SPACE, NEL, NBSP. *)
Definition isspace (c : ascii) : bool :=
  let n := nat_of_ascii c in
  between 9 13 n || between 28 32 n || (n =? 133)%nat || (n =? 160)%nat.

(** Upper-case letters: A-Z and the Latin-1 capitals (without the
    multiplication sign U+00D7). *)
Definition isupper (c : ascii) : bool :=
  let n := nat_of_ascii c in
  between 65 90 n || between 192 214 n || between 216 222 n.

Definition lower_char (c : ascii) : ascii :=
  if isupper c then ascii_of_nat (nat_of_ascii c + 32) else c.

Fixpoint smap (f : ascii -> ascii) (s : string) : string :=
  match s with
  | EmptyString => EmptyString
  | String c s' => String (f c) (smap f s')
  end.

(** [s.lower()] *)
Definition lower (s : string) : string := smap lower_char s.

(** [s.replace(old, new)] for one-character [old] and [new]. *)
Definition replace_char (old new : ascii) (c : ascii) : ascii :=
  if Ascii.eqb c old then new else c.

Definition replace (old new : ascii) (s : string) : string :=
  smap (replace_char old new) s.

Fixpoint lstrip (s : string) : string :=
  match s with
  | EmptyString => EmptyString
  | String c s' => if isspace c then lstrip s' else s
  end.

Fixpoint rstrip (s : string) : string :=
  match s with
  | EmptyString => EmptyString
  | String c s' =>
      match rstrip s' with
      | EmptyString => if isspace c then EmptyString else String c EmptyString
      | r => String c r
      end
  end.

(** [s.strip()] *)
Definition strip (s : string) : string := lstrip (rstrip s).

(** Lower-casing, then the replacement of the space, on one character. *)
Definition norm_char (c : ascii) : ascii := replace_char " " "_" (lower_char c).

(** Stripped strings: fixed by both strips. *)
Definition trimmed (s : string) : Prop := lstrip s = s /\ rstrip s = s.

End PyStr.

(** ** Tabular data

    A cell of a [pandas.DataFrame] holds an integer, a float, text, or the
    null marker (NaN / None).  A finite float is modelled by the rational
    it denotes; [NInf] is an IEEE infinity, which [pd.read_csv] and
    [pd.to_numeric] produce from text such as [inf] and [-Infinity]. *)

Inductive number :=
| NInt (z : Z)
| NFloat (q : Q)
| NInf (negative : bool).

Inductive cell :=
| CNum (n : number)
| CStr (s : string)
| CNull.

(** A frame is row-major: the column labels and the records in order.  A
    dataset in the sense of the specification (records sharing a fixed
    column set) is a frame whose labels are pairwise distinct,
    [NoDup (columns df)]: [pd.read_csv], from which every frame of the
    pipeline comes, renames repeated headers. *)
Record DataFrame := mkFrame {
  columns : list string;
  rows : list (list cell)
}.

(** [len(df)] *)
Definition len (df : DataFrame) : Z := Z.of_nat (length (rows df)).

(** [df.empty]: some axis has length zero. *)
Definition empty (df : DataFrame) : bool :=
  match columns df, rows df with
  | [], _ | _, [] => true
  | _, _ => false
  end.

(** [col in df.columns] *)
Definition has_column (col : string) (df : DataFrame) : bool :=
  bool_decide (col ∈ columns df).

(** [df.head(n)] is [df.iloc[:n]]: the first [n] rows, and for a negative [n]
    all rows but the last [-n]. *)
Definition head (n : Z) (df : DataFrame) : DataFrame :=
  {| columns := columns df;
     rows := if 0 <=? n then take (Z.to_nat n) (rows df)
             else take (length (rows df) - Z.to_nat (- n)) (rows df) |}.

(** ** Exceptions and console output *)

Inductive exception :=
| FileNotFoundError
| ValueError
| TypeError
| KeyError
| ExternalError (what : string).   (* raised by a library or a driver *)

(** What a [raise] carries up the stack.  [sys.exit] raises [SystemExit],
    which is not an [Exception] and passes through [except Exception]. *)
Inductive raised :=
| Exc (e : exception)
| SystemExit (code : Z).

Inductive result (A : Type) :=
| Ok (a : A)
| Err (e : exception).
Arguments Ok {A} a.
Arguments Err {A} e.

Inductive level := Info | Success | Warning | Error.

Inductive arg :=
| AStr (s : string)
| AInt (z : Z)
| ACols (cols : list string)
| AExc (e : exception)
| AFrame (df : DataFrame).

(** One [print] call: its kind, a key for the literal text, and the values
    interpolated in it. *)
Record msg := Msg { msg_level : level; msg_key : string; msg_args : list arg }.

(** ** Comparisons and null tests on cells *)

Definition isnull (c : cell) : bool :=
  match c with CNull => true | _ => false end.

Definition number_ltb (n : number) (k : Z) : bool :=
  match n with
  | NInt z => z <? k
  | NFloat q => negb (Qle_bool (inject_Z k) q)
  | NInf negative => negative
  end.

(** One element of [series < k].  A null compares false; text against an
    [int] raises [TypeError]. *)
Definition cell_lt (c : cell) (k : Z) : result bool :=
  match c with
  | CNum n => Ok (number_ltb n k)
  | CNull => Ok false
  | CStr _ => Err TypeError
  end.

(** The database handle built by [create_engine]: the pieces interpolated in
    the connection string. *)
Record engine := mkEngine {
  e_user : cell; e_pass : cell; e_url : cell; e_port : cell;
  e_database : string
}.

(** ** The external collaborators

    Queries read the world; commands may change it, and report an exception
    in place of a result. *)
Class Externals (W : Type) := {
  (* pathlib *)
  path_exists : string -> W -> bool;
  mkdir : string -> W -> W * result unit;
  (* gdown *)
  gdown_download : string -> string -> W -> W * result unit;
  (* pandas *)
  read_csv : string -> W -> result DataFrame;
  to_csv : DataFrame -> string -> W -> W * result unit;
  to_parquet : DataFrame -> string -> W -> W * result unit;
  (* how [pd.to_numeric] reads one piece of text; [None] when it cannot *)
  parse_number : string -> option number;
  (* sqlite3: connect, [SELECT url, port, user, pass FROM access], close *)
  sqlite_read_access : string -> W -> W * result DataFrame;
  (* sqlalchemy *)
  create_engine : engine -> result engine;
  engine_connect : engine -> W -> W * result unit;
  to_sql_replace : engine -> string -> DataFrame -> W -> W * result unit;
  (* [SELECT COUNT( * ) as count FROM t] and [.iloc[0]['count']] *)
  read_sql_count : engine -> string -> W -> result Z;
  (* [SELECT * FROM t LIMIT 3] *)
  read_sql_sample : engine -> string -> W -> result DataFrame
}.

(** ** The monad of the program *)

Record State (W : Type) := mkState { world : W; stdout : list msg }.
Arguments mkState {W} world stdout.
Arguments world {W} s.
Arguments stdout {W} s.

Inductive outcome (A : Type) :=
| Return (a : A)
| Raise (r : raised).
Arguments Return {A} a.
Arguments Raise {A} r.

Definition M (W A : Type) : Type := State W -> outcome A * State W.

Definition ret {W A} (a : A) : M W A := fun s => (Return a, s).

Definition bind {W A B} (m : M W A) (k : A -> M W B) : M W B :=
  fun s =>
    match m s with
    | (Return a, s') => k a s'
    | (Raise r, s') => (Raise r, s')
    end.

(** Bind with the computation first, so that the type of the bound name is
    known in the continuation. *)
Notation "x <- m ; k" := (bind m (fun x => k))
  (at level 20, m at level 100, k at level 200, only parsing).
Notation "' x <- m ; k" := (bind m (fun x => k))
  (at level 20, x pattern, m at level 100, k at level 200, only parsing).

#[global] Instance M_ret {W} : MRet (M W) := fun A => @ret W A.
#[global] Instance M_bind {W} : MBind (M W) := fun A B k m => @bind W A B m k.

Definition raise {W A} (e : exception) : M W A := fun s => (Raise (Exc e), s).

(** [sys.exit(code)] *)
Definition sys_exit {W A} (code : Z) : M W A :=
  fun s => (Raise (SystemExit code), s).

Definition print {W} (l : level) (key : string) (args : list arg) : M W unit :=
  fun s => (Return tt, mkState (world s) (stdout s ++ [Msg l key args])).

(** [try: body  except Exception as e: handler e] *)
Definition try_except {W A} (body : M W A) (handler : exception -> M W A) : M W A :=
  fun s =>
    match body s with
    | (Raise (Exc e), s') => handler e s'
    | r => r
    end.

Definition of_result {W A} (r : result A) : M W A :=
  match r with
  | Ok a => ret a
  | Err e => raise e
  end.

(** Running a query, and running a command, of the collaborators. *)
Definition query {W A} (q : W -> result A) : M W A :=
  fun s => of_result (q (world s)) s.

Definition command {W A} (c : W -> W * result A) : M W A :=
  fun s => let (w', r) := c (world s) in of_result r (mkState w' (stdout s)).

(** The exit status of the interpreter after running the program [m]:
    0 when it returns, the code of [SystemExit], 1 on an uncaught exception. *)
Definition exit_code {W A} (m : M W A) (s : State W) : Z :=
  match fst (m s) with
  | Return _ => 0
  | Raise (SystemExit c) => c
  | Raise (Exc _) => 1
  end.

#[global] Instance result_ret : MRet result := fun A a => Ok a.
#[global] Instance result_bind : MBind result :=
  fun A B k r => match r with Ok a => k a | Err e => Err e end.

(** Reading a value off the world (no exception possible). *)
Definition observe {W A} (f : W -> A) : M W A :=
  fun s => (Return (f (world s)), s).

(** Truth value of a Python list. *)
Definition nonempty {A} (l : list A) : bool :=
  match l with [] => false | _ => true end.

(** ** Paths

    [str(Path(a) / b)] on a POSIX system: the two are joined as by
    [os.path.join], and the path is rebuilt from its root and its parts. *)

(** [s.split('/')] *)
Fixpoint split_slash (s : string) : list string :=
  match s with
  | EmptyString => [EmptyString]
  | String c s' =>
      if Ascii.eqb c "/" then EmptyString :: split_slash s'
      else match split_slash s' with
           | [] => [String c EmptyString]
           | part :: parts => String c part :: parts
           end
  end.

Definition startswith_slash (s : string) : bool :=
  match s with
  | String c _ => Ascii.eqb c "/"
  | EmptyString => false
  end.

Fixpoint endswith_slash (s : string) : bool :=
  match s with
  | EmptyString => false
  | String c EmptyString => Ascii.eqb c "/"
  | String _ s' => endswith_slash s'
  end.

(** [os.path.join(a, b)]: an absolute [b] replaces [a]. *)
Definition os_path_join (a b : string) : string :=
  if startswith_slash b then b
  else if bool_decide (a = "") || endswith_slash a then a +:+ b
  else a +:+ "/" +:+ b.

(** The root of a path: none, one slash, or exactly two leading slashes,
    which POSIX keeps apart. *)
Definition path_root (p : string) : string :=
  match p with
  | String c1 p1 =>
      if Ascii.eqb c1 "/" then
        match p1 with
        | String c2 p2 =>
            if Ascii.eqb c2 "/" then
              if startswith_slash p2 then "/" else "//"
            else "/"
        | EmptyString => "/"
        end
      else ""
  | EmptyString => ""
  end.

(** The parts of a path: empty components and [.] are dropped. *)
Definition path_parts (p : string) : list string :=
  filter (fun part => part <> "" /\ part <> ".") (split_slash p).

(** [str(Path(p))] *)
Definition path_str (p : string) : string :=
  let shown := path_root p +:+ String.concat "/" (path_parts p) in
  if bool_decide (shown = "") then "." else shown.

(** [str(Path(a) / b)] *)
Definition path_join (a b : string) : string :=
  path_str (os_path_join (path_str a) b).

(** ['/' in s] *)
Fixpoint has_slash (s : string) : bool :=
  match s with
  | EmptyString => false
  | String c s' => Ascii.eqb c "/" || has_slash s'
  end.

(** ** Columns of a frame *)

(** The positions at which [col] labels a column. *)
Fixpoint positions_from (i : nat) (col : string) (cols : list string) : list nat :=
  match cols with
  | [] => []
  | c :: cols' =>
      if decide (c = col) then i :: positions_from (S i) col cols'
      else positions_from (S i) col cols'
  end.

Definition positions (col : string) (cols : list string) : list nat :=
  positions_from 0 col cols.

(** The cell of a record at position [j]. *)
Definition cell_at (j : nat) (r : list cell) : cell := default CNull (r !! j).

(** [df[col]] as a Series: the cells of the one column labelled [col].  When
    the label is repeated pandas yields a frame, not a Series ([None]). *)
Definition series (col : string) (df : DataFrame) : option (list cell) :=
  match positions col (columns df) with
  | [j] => Some (cell_at j <$> rows df)
  | _ => None
  end.

(** [df[col] = f(df[col])], element by element, for the column at [j]. *)
Definition map_column (f : cell -> cell) (j : nat) (df : DataFrame) : DataFrame :=
  {| columns := columns df; rows := alter f j <$> rows df |}.

Section Program.

Context {W : Type} {EXT : Externals W}.

(** ** extract.py *)

Definition default_file_id : string := "1kk5pYKqE--lqhxEAfqsks3QVpK-LP-Ta".

Definition download_dataset (file_id output_file : string) : M W string :=
  let url := "https://drive.google.com/uc?id=" +:+ file_id in
  let raw_dir := "data/raw" in
  command (mkdir raw_dir);;
  let output_path := path_join raw_dir output_file in
  print Info "downloading from" [AStr url];;
  command (gdown_download url output_path);;
  present <- observe (path_exists output_path);
  if negb present then raise FileNotFoundError
  else
    print Info "data saved to" [AStr output_path];;
    mret output_path.

Definition expected_columns : list string :=
  ["Year_of_Release"; "NA_Sales"; "EU_Sales"; "JP_Sales";
   "Other_Sales"; "Global_Sales"].

Definition validate_raw_data (file_path : string) : M W bool :=
  try_except
    (df <- query (read_csv file_path);
     if empty df then
       print Error "file is empty" [];;
       mret false
     else
       let missing_columns :=
         filter (fun col => col ∉ columns df) expected_columns in
       (if nonempty missing_columns
        then print Warning "columns are missing" [ACols missing_columns]
        else mret tt);;
       print Info "raw data: rows, columns"
             [AInt (len df); AInt (Z.of_nat (length (columns df)))];;
       print Info "first 5 rows" [];;
       print Info "head" [AFrame (head 5 df)];;
       print Info "dtypes of the raw data" [];;
       print Info "dtypes" [AFrame df];;
       mret true)
    (fun e =>
       print Error "raw data validation error" [AExc e];;
       mret false).

Definition extract_data (file_id : option string) (output_file : string)
  : M W string :=
  let file_id := default default_file_id file_id in
  file_path <- download_dataset file_id output_file;
  valid <- validate_raw_data file_path;
  if valid then
    print Success "extraction and raw validation done" [];;
    mret file_path
  else raise ValueError.

(** ** transform.py *)

Definition numeric_columns : list string :=
  ["Year_of_Release"; "NA_Sales"; "EU_Sales"; "JP_Sales"; "Other_Sales";
   "Global_Sales"; "Critic_Score"; "Critic_Count"; "User_Score";
   "User_Count"].

(** One element of [pd.to_numeric(series, errors='coerce')]: a number, or
    NaN ([None]) for a null and for text that does not parse. *)
Definition to_numeric_coerce (c : cell) : option number :=
  match c with
  | CNum n => Some n
  | CStr s => parse_number s
  | CNull => None
  end.

(** An element of a numeric Series stored back in the frame. *)
Definition of_numeric (x : option number) : cell :=
  match x with
  | Some n => CNum n
  | None => CNull
  end.

(** One element of [series.fillna(v)]. *)
Definition fillna (v : Z) (x : option number) : number :=
  default (NInt v) x.

Definition int64_min : Z := - 2 ^ 63.
Definition int64_max : Z := 2 ^ 63 - 1.

(** One element of [series.astype(int)] on a Series without NaN.  The
    target is [int64]: a finite float is truncated towards zero, and one
    whose truncation does not fit becomes [int64_min]; an infinity makes
    the whole cast raise [IntCastingNaNError], a [ValueError].  An integer
    is kept: exact when the Series is already [int64], and for
    [|z| <= 2^53] also when a NaN beside it had turned the Series into
    floats. *)
Definition astype_int (n : number) : result Z :=
  match n with
  | NInt z => Ok z
  | NFloat q =>
      let t := Z.quot (Qnum q) (Zpos (Qden q)) in
      Ok (if (int64_min <=? t) && (t <=? int64_max) then t else int64_min)
  | NInf _ => Err ValueError
  end.

(** [df[col] = f(df[col])] where [f] wants a Series: [TypeError] when
    [df[col]] is a frame because the label is repeated. *)
Definition assign_series (f : cell -> cell) (col : string) (df : DataFrame)
  : result DataFrame :=
  match positions col (columns df) with
  | [j] => Ok (map_column f j df)
  | _ => Err TypeError
  end.

(** The body of [for col in numeric_columns]. *)
Definition coerce_column (df : DataFrame) (col : string) : result DataFrame :=
  if has_column col df
  then assign_series (fun c => of_numeric (to_numeric_coerce c)) col df
  else Ok df.

Fixpoint coerce_columns (cols : list string) (df : DataFrame)
  : result DataFrame :=
  match cols with
  | [] => Ok df
  | col :: cols' => coerce_column df col ≫= coerce_columns cols'
  end.

(** [pd.to_numeric(..., errors='coerce').fillna(0).astype(int)] on one
    element. *)
Definition year_cell (c : cell) : result cell :=
  match astype_int (fillna 0 (to_numeric_coerce c)) with
  | Ok z => Ok (CNum (NInt z))
  | Err e => Err e
  end.

(** A cast applied to the cell at [j] of one record. *)
Definition cast_at (f : cell -> result cell) (j : nat) (r : list cell)
  : result (list cell) :=
  match r !! j with
  | Some c =>
      match f c with
      | Ok c' => Ok (<[j := c']> r)
      | Err e => Err e
      end
  | None => Ok r
  end.

(** The records in order, up to the first one whose cast raises. *)
Fixpoint cast_rows (f : cell -> result cell) (j : nat)
  (rs : list (list cell)) : result (list (list cell)) :=
  match rs with
  | [] => Ok []
  | r :: rs' =>
      match cast_at f j r with
      | Ok r' =>
          match cast_rows f j rs' with
          | Ok rs'' => Ok (r' :: rs'')
          | Err e => Err e
          end
      | Err e => Err e
      end
  end.

(** [df[col] = f(df[col])] where [f] is a cast of the whole Series, which
    raises when it raises on one element; [TypeError] on a repeated label
    as in [assign_series]. *)
Definition assign_cast (f : cell -> result cell) (col : string)
  (df : DataFrame) : result DataFrame :=
  match positions col (columns df) with
  | [j] =>
      match cast_rows f j (rows df) with
      | Ok rs => Ok {| columns := columns df; rows := rs |}
      | Err e => Err e
      end
  | _ => Err TypeError
  end.

Definition transform_data_types (df : DataFrame) : M W DataFrame :=
  print Info "start of the type transformation" [];;
  print Info "types before" [];;
  print Info "dtypes" [AFrame df];;
  df <- of_result (coerce_columns numeric_columns df);
  df <- (if has_column "Year_of_Release" df
        then of_result (assign_cast year_cell "Year_of_Release" df)
        else mret df);
  print Info "types after" [];;
  print Info "dtypes" [AFrame df];;
  mret df.

(** [col.strip().lower().replace(' ', '_')] *)
Definition normalize_name (col : string) : string :=
  PyStr.replace " " "_" (PyStr.lower (PyStr.strip col)).

Definition normalize_column_names (df : DataFrame) : M W DataFrame :=
  let df := {| columns := normalize_name <$> columns df; rows := rows df |} in
  print Info "column names normalized" [];;
  mret df.

Definition transform_data (input_file output_file : string) : M W string :=
  let processed_dir := "data/processed" in
  command (mkdir processed_dir);;
  let output_path := path_join processed_dir output_file in
  df <- query (read_csv input_file);
  print Info "rows loaded for transformation" [AInt (len df)];;
  df <- transform_data_types df;
  df <- normalize_column_names df;
  command (to_csv df output_path);;
  print Info "transformed data saved to" [AStr output_path];;
  mret output_path.

(** ** validate.py *)

Definition required_columns : list string :=
  ["year_of_release"; "na_sales"; "eu_sales"; "jp_sales";
   "other_sales"; "global_sales"].

Definition validate_schema (df : DataFrame) : M W bool :=
  let missing_columns :=
    filter (fun col => col ∉ columns df) required_columns in
  if nonempty missing_columns then
    print Error "schema validation: columns are missing" [ACols missing_columns];;
    mret false
  else
    print Success "schema validation passed" [];;
    mret true.

Inductive issue :=
| NullValues (col : string) (n : Z)
| YearsBefore1950 (n : Z)
| NegativeSales (n : Z).

Definition issue_line (i : issue) : msg :=
  match i with
  | NullValues col n => Msg Warning "column has null values" [AStr col; AInt n]
  | YearsBefore1950 n => Msg Warning "records released before 1950" [AInt n]
  | NegativeSales n => Msg Warning "records with negative sales" [AInt n]
  end.

Definition key_columns : list string := ["year_of_release"; "global_sales"].

(** [df[col].isnull().sum()], then [if null_count > 0]: the test raises
    [ValueError] when [df[col]] is a frame and the sum a Series. *)
Definition null_issue (df : DataFrame) (col : string) : result (list issue) :=
  if has_column col df then
    match series col df with
    | Some s =>
        let null_count := Z.of_nat (length (filter (fun c => isnull c) s)) in
        Ok (if 0 <? null_count then [NullValues col null_count] else [])
    | None => Err ValueError
    end
  else Ok [].

Fixpoint null_issues (df : DataFrame) (cols : list string) : result (list issue) :=
  match cols with
  | [] => Ok []
  | col :: cols' =>
      here ← null_issue df col;
      rest ← null_issues df cols';
      Ok (here ++ rest)%list
  end.

(** [df[df[col] < k][col].count()]: the records whose cell compares below
    [k], counted where that cell is not null. *)
Definition count_below (col : string) (k : Z) (df : DataFrame) : result Z :=
  match series col df with
  | Some s =>
      mask ← mapM (fun c => cell_lt c k) s;
      Ok (Z.of_nat (length
            (filter (fun cb => cb.2 && negb (isnull cb.1)) (zip s mask))))
  | None => Err ValueError
  end.

Fixpoint print_issues (issues : list issue) : M W unit :=
  match issues with
  | [] => mret tt
  | i :: issues' =>
      (let m := issue_line i in print (msg_level m) (msg_key m) (msg_args m));;
      print_issues issues'
  end.

Definition validate_data_quality (df : DataFrame) : M W bool :=
  issues <- of_result (null_issues df key_columns);
  issues <- (if has_column "year_of_release" df then
               invalid_years <- of_result (count_below "year_of_release" 1950 df);
               mret (if 0 <? invalid_years
                     then (issues ++ [YearsBefore1950 invalid_years])%list
                     else issues)
             else mret issues);
  issues <- (if has_column "global_sales" df then
               negative_sales <- of_result (count_below "global_sales" 0 df);
               mret (if 0 <? negative_sales
                     then (issues ++ [NegativeSales negative_sales])%list
                     else issues)
             else mret issues);
  (if nonempty issues then
     print Warning "data quality warnings" [];;
     print_issues issues
   else print Success "data quality validation passed" []);;
  mret true.

Definition files_to_check : list string :=
  ["data/raw/raw_dataset.csv";
   "data/processed/transformed_dataset.csv";
   "data/processed/processed_data.parquet"].

Definition validate_output_files : M W bool :=
  missing_files <-
    observe (fun w => filter (fun p => negb (path_exists p w)) files_to_check);
  if nonempty missing_files then
    print Error "files are missing" [ACols missing_files];;
    mret false
  else
    print Success "all output files were created" [];;
    mret true.

Definition comprehensive_validation (df : DataFrame) (stage : string)
  : M W bool :=
  print Info "validation at stage" [AStr stage];;
  if empty df then
    print Error "DataFrame is empty" [];;
    mret false
  else
    print Info "data: rows, columns"
          [AInt (len df); AInt (Z.of_nat (length (columns df)))];;
    schema_ok <- (if bool_decide (stage ∈ ["transformed"; "output"])
                  then validate_schema df else mret true);
    if negb schema_ok then mret false
    else
      quality_ok <- validate_data_quality df;
      if negb quality_ok then mret false
      else
        files_ok <- (if String.eqb stage "output"
                     then validate_output_files else mret true);
        if negb files_ok then mret false
        else
          print Success "validation of the stage finished" [AStr stage];;
          mret true.

(** ** load.py *)

(** The fields of a [DataLoader] object. *)
Record DataLoader := mkLoader {
  loader_engine : option engine;
  loader_dataset : option DataFrame
}.

(** [result.iloc[0].to_dict()]: label to value; of a repeated label the
    last one stays. *)
Definition to_dict (labels : list string) (r : list cell) : gmap string cell :=
  list_to_map (reverse (zip labels r)).

(** Returns [None], or the dictionary [Some d]. *)
Definition get_connection_params (db_path : string)
  : M W (option (gmap string cell)) :=
  let conn_params : gmap string cell := ∅ in
  try_except
    (result <- command (sqlite_read_access db_path);
     if negb (empty result) then
       match rows result with
       | r :: _ =>
           let conn_params := to_dict (columns result) r in
           print Info "connection parameters received" [];;
           mret (Some conn_params)
       | [] => raise (ExternalError "IndexError")
       end
     else mret (Some conn_params))
    (fun err =>
       print Error "cannot get the parameters" [AExc err];;
       mret None).

(** [not conn_params]: true of [None] and of the empty dictionary. *)
Definition not_params (p : option (gmap string cell)) : bool :=
  match p with
  | None => true
  | Some d => bool_decide (d = ∅)
  end.

(** [conn_params[key]] *)
Definition getitem (d : gmap string cell) (key : string) : M W cell :=
  match d !! key with
  | Some v => mret v
  | None => raise KeyError
  end.

(** Returns the flag and the loader, whose [engine] field it assigns. *)
Definition setup_database_connection (self : DataLoader) (database_name : string)
  : M W (bool * DataLoader) :=
  conn_params <- get_connection_params "creds.db";
  if not_params conn_params then mret (false, self)
  else
    let d := default ∅ conn_params in
    user <- getitem d "user";
    pass <- getitem d "pass";
    url <- getitem d "url";
    port <- getitem d "port";
    let connection_string := mkEngine user pass url port database_name in
    match create_engine connection_string with
    | Ok eng =>
        let self := mkLoader (Some eng) (loader_dataset self) in
        try_except
          (command (engine_connect eng);;
           print Info "connected to the database" [AStr database_name];;
           mret (true, self))
          (fun err =>
             print Error "cannot connect to the database" [AExc err];;
             mret (false, self))
    | Err err =>
        print Error "cannot connect to the database" [AExc err];;
        mret (false, self)
    end.

Definition load_to_database (self : DataLoader) (data : DataFrame)
    (table_name : string) (max_rows : Z) : M W bool :=
  match loader_engine self with
  | None =>
      print Info "no database connection" [];;
      mret false
  | Some eng =>
      let data_limited := head max_rows data in
      try_except
        (command (to_sql_replace eng table_name data_limited);;
         print Info "data written to the table: rows"
               [AStr table_name; AInt (len data_limited)];;
         mret true)
        (fun err =>
           print Error "cannot write the data to the database" [AExc err];;
           mret false)
  end.

Definition save_to_parquet (self : DataLoader) (data : DataFrame)
    (filename : string) : M W (option string) :=
  let processed_dir := "data/processed" in
  command (mkdir processed_dir);;
  let output_path := path_join processed_dir filename in
  try_except
    (command (to_parquet data output_path);;
     print Info "data saved to Parquet" [AStr output_path];;
     mret (Some output_path))
    (fun err =>
       print Error "cannot save to Parquet" [AExc err];;
       mret None).

(** Truth value of [expected_rows], an [int] or [None]. *)
Definition truthy (expected_rows : option Z) : bool :=
  match expected_rows with
  | Some n => negb (n =? 0)
  | None => false
  end.

Definition validate_output_data (self : DataLoader) (table_name : string)
    (expected_rows : option Z) : M W bool :=
  match loader_engine self with
  | None =>
      print Info "no database connection" [];;
      mret false
  | Some eng =>
      try_except
        (row_count <- query (read_sql_count eng table_name);
         print Info "rows in the table" [AStr table_name; AInt row_count];;
         if truthy expected_rows
            && negb (bool_decide (Some row_count = expected_rows))
         then
           print Warning "expected rows, got rows"
                 [AInt (default 0 expected_rows); AInt row_count];;
           mret false
         else
           sample_data <- query (read_sql_sample eng table_name);
           print Info "sample of the data in the database" [AInt (len sample_data)];;
           print Info "sample" [AFrame sample_data];;
           mret true)
        (fun err =>
           print Error "output data validation error" [AExc err];;
           mret false)
  end.

(** Truth value of the path returned by [save_to_parquet]. *)
Definition path_truthy (p : option string) : bool :=
  match p with
  | Some s => negb (String.eqb s "")
  | None => false
  end.

Definition load_data (transformed_file table_name : string) (max_rows : Z)
  : M W bool :=
  let loader := mkLoader None None in
  data <- query (read_csv transformed_file);
  print Info "rows loaded for the database" [AInt (len data)];;
  '(connected, loader) <- setup_database_connection loader "homeworks";
  if negb connected then mret false
  else
    written <- load_to_database loader data table_name max_rows;
    if negb written then mret false
    else
      parquet_path <- save_to_parquet loader data "processed_data.parquet";
      if negb (path_truthy parquet_path) then mret false
      else
        verified <- validate_output_data loader table_name
                      (Some (Z.min max_rows (len data)));
        if negb verified then mret false
        else
          print Success "data load finished" [];;
          mret true.

(** ** main.py *)

Definition run_etl_pipeline (file_id : option string) (table_name : string)
    (max_rows : Z) (skip_extraction : bool) : M W unit :=
  print Info "banner" [];;
  print Info "ETL pipeline started" [];;
  print Info "banner" [];;
  try_except
    (raw_file <-
       (if skip_extraction then
          let raw_file := "data/raw/raw_dataset.csv" in
          present <- observe (path_exists raw_file);
          if negb present then raise FileNotFoundError
          else
            print Success "extraction skipped, existing data is used" [];;
            mret raw_file
        else
          print Info "1. EXTRACTION" [];;
          raw_file <- extract_data file_id "raw_dataset.csv";
          raw_data <- query (read_csv raw_file);
          comprehensive_validation raw_data "raw";;
          mret raw_file);
     print Info "2. TRANSFORMATION" [];;
     transformed_file <- transform_data raw_file "transformed_dataset.csv";
     transformed_data <- query (read_csv transformed_file);
     comprehensive_validation transformed_data "transformed";;
     print Info "3. LOAD" [];;
     success <- load_data transformed_file table_name max_rows;
     if success then
       print Info "banner" [];;
       print Success "ETL PIPELINE FINISHED" [];;
       print Info "banner" []
     else
       print Info "banner" [];;
       print Error "ETL PIPELINE FINISHED WITH ERRORS" [];;
       print Info "banner" [];;
       sys_exit 1)
    (fun e =>
       print Error "critical error in the ETL pipeline" [AExc e];;
       sys_exit 1).

End Program.

(** ** An in-memory world

    A concrete instance of the collaborators, on which the program runs by
    computation: a file system, the files on Google Drive, and a sink.  It
    is taken for any [parse], the numbers that [pd.to_numeric] reads in
    text, for any [resolve], and for any [store]:

    - [DataFrame.to_sql] quotes the table name, so a frame is written under
      the name as given, while the queries of [validate_output_data]
      interpolate it unquoted.  [resolve t] is the table that the unquoted
      [t] denotes in a query, [None] when the query fails on it: PostgreSQL
      folds an unquoted name to lower case, and does not parse one that is
      no plain identifier;
    - the sink keeps [store df] of a frame [df] written to it ([store] is
      the identity for a sink that keeps what it is given). *)

Inductive file :=
| CsvFile (df : DataFrame)
| ParquetFile (df : DataFrame)
| CredentialDb (access : DataFrame)
| Directory.

Record MemWorld := mkWorld {
  files : gmap string file;
  drive : gmap string DataFrame;
  sink_up : bool;
  tables : gmap string DataFrame
}.

Definition with_file (p : string) (f : file) (w : MemWorld) : MemWorld :=
  mkWorld (<[p := f]> (files w)) (drive w) (sink_up w) (tables w).

Definition with_table (t : string) (df : DataFrame) (w : MemWorld) : MemWorld :=
  mkWorld (files w) (drive w) (sink_up w) (<[t := df]> (tables w)).

Fixpoint digits_value (acc : Z) (s : string) : option Z :=
  match s with
  | EmptyString => Some acc
  | String c s' =>
      let n := nat_of_ascii c in
      if PyStr.between 48 57 n
      then digits_value (10 * acc + (Z.of_nat n - 48)) s'
      else None
  end.

(** Decimal integers with an optional minus sign. *)
Definition parse_integer (s : string) : option number :=
  match s with
  | EmptyString => None
  | String "-" EmptyString => None
  | String "-" s' => (fun z => NInt (- z)) <$> digits_value 0 s'
  | _ => NInt <$> digits_value 0 s
  end.

Definition unavailable : exception := ExternalError "OperationalError".

(** The table that the unquoted name [table] denotes in a query on [w]. *)
Definition denoted (resolve : string -> option string) (table : string)
    (w : MemWorld) : option DataFrame :=
  resolve table ≫= (fun t' => tables w !! t').

#[global] Instance mem_externals (parse : string -> option number)
    (resolve : string -> option string) (store : DataFrame -> DataFrame)
  : Externals MemWorld := {|
  path_exists p w := bool_decide (is_Some (files w !! p));
  mkdir p w :=
    (if bool_decide (is_Some (files w !! p)) then w else with_file p Directory w,
     Ok tt);
  gdown_download url output w :=
    (match drive w !! url with
     | Some df => with_file output (CsvFile df) w
     | None => w
     end, Ok tt);
  read_csv p w :=
    match files w !! p with
    | Some (CsvFile df) => Ok df
    | Some _ => Err (ExternalError "ParserError")
    | None => Err FileNotFoundError
    end;
  to_csv df p w := (with_file p (CsvFile df) w, Ok tt);
  to_parquet df p w := (with_file p (ParquetFile df) w, Ok tt);
  parse_number := parse;
  sqlite_read_access p w :=
    (w, match files w !! p with
        | Some (CredentialDb access) => Ok access
        | _ => Err unavailable
        end);
  create_engine e := Ok e;
  engine_connect e w := (w, if sink_up w then Ok tt else Err unavailable);
  to_sql_replace e t df w :=
    if sink_up w then (with_table t (store df) w, Ok tt)
    else (w, Err unavailable);
  read_sql_count e t w :=
    match denoted resolve t w with
    | Some df => Ok (len df)
    | None => Err unavailable
    end;
  read_sql_sample e t w :=
    match denoted resolve t w with
    | Some df => Ok (head 3 df)
    | None => Err unavailable
    end
|}.

(** The world of the scenarios below: the text read as a number is a
    decimal integer, a name denotes in a query the table written under it
    (as for the lower-case names of the scenarios), and the sink keeps what
    it is given. *)
Definition faithful : Externals MemWorld := mem_externals parse_integer Some id.

(** A sink that loses the last record of what it is given. *)
Definition drop_last (df : DataFrame) : DataFrame :=
  {| columns := columns df; rows := take (length (rows df) - 1) (rows df) |}.

Definition lossy : Externals MemWorld :=
  mem_externals parse_integer Some drop_last.

Definition start (w : MemWorld) : State MemWorld := mkState w [].

(** ** Vocabulary of the statements *)

Definition is_text (c : cell) : bool :=
  match c with CStr _ => true | _ => false end.

(** The column [col] is absent, or it is labelled once and holds no text:
    what [validate_data_quality] needs of a key column to compare it. *)
Definition clean_key_column (col : string) (df : DataFrame) : bool :=
  if has_column col df then
    match series col df with
    | Some s => forallb (fun c => negb (is_text c)) s
    | None => false
    end
  else true.

Definition quality_checkable (df : DataFrame) : bool :=
  forallb (fun col => clean_key_column col df) key_columns.

(** What makes [validate_raw_data] refuse a file: it cannot be read, or the
    frame read from it is empty. *)
Definition raw_unusable {W} {EXT : Externals W} (file_path : string) (w : W) : bool :=
  match read_csv file_path w with
  | Err _ => true
  | Ok df => empty df
  end.

(** The cell reads as an infinity. *)
Definition is_infinite {W} {EXT : Externals W} (c : cell) : bool :=
  match to_numeric_coerce c with
  | Some (NInf _) => true
  | _ => false
  end.

(** No cell of the column [Year_of_Release] reads as an infinity: what the
    cast to integers needs of the frame. *)
Definition year_castable {W} {EXT : Externals W} (df : DataFrame) : bool :=
  match series "Year_of_Release" df with
  | Some cells => forallb (fun c => negb (is_infinite c)) cells
  | None => true
  end.

(** The integer cell that the cast makes of a year cell; for an infinity,
    on which the cast raises, the number that the loop has left. *)
Definition year_value {W} {EXT : Externals W} (c : cell) : cell :=
  match year_cell c with
  | Ok c' => c'
  | Err _ => of_numeric (to_numeric_coerce c)
  end.

(** What [transform_data_types] makes of a cell under the label [label]
    when it returns. *)
Definition coerced {W} {EXT : Externals W} (label : string) (c : cell) : cell :=
  if bool_decide (label = "Year_of_Release") then year_value c
  else if bool_decide (label ∈ numeric_columns)
       then of_numeric (to_numeric_coerce c)
       else c.

(** [f] on the cells of a record that stand under a label satisfying [p]. *)
Definition on_labels (p : string -> bool) (f : cell -> cell)
    (labels : list string) (r : list cell) : list cell :=
  imap (fun j c => match labels !! j with
                   | Some l => if p l then f c else c
                   | None => c
                   end) r.

Definition coerced_row {W} {EXT : Externals W} (labels : list string)
    (r : list cell) : list cell :=
  imap (fun j c => match labels !! j with
                   | Some l => coerced l c
                   | None => c
                   end) r.

(** The computation [m] never ends the process: it does not raise
    [SystemExit]. *)
Definition no_exit {W A} (m : M W A) : Prop :=
  forall s c s', m s <> (Raise (SystemExit c), s').

(** The state [s] after the lines [out] were printed. *)
Definition logged {W} (s : State W) (out : list msg) : State W :=
  mkState (world s) (stdout s ++ out).

(** The first stage of the driver, begun in [s], has produced [raw_file]
    and left [s1]: the staged file was found, or it was extracted, read
    back and validated (the result of the validation is not used). *)
Definition staged {W} {EXT : Externals W} (file_id : option string)
    (skip : bool) (s : State W) (raw_file : string) (s1 : State W) : Prop :=
  if skip then
    raw_file = "data/raw/raw_dataset.csv" /\
    path_exists raw_file (world s) = true /\
    s1 = logged s [Msg Success "extraction skipped, existing data is used" []]
  else
    exists sa raw_data b,
      extract_data file_id "raw_dataset.csv"
        (logged s [Msg Info "1. EXTRACTION" []]) = (Return raw_file, sa) /\
      read_csv raw_file (world sa) = Ok raw_data /\
      comprehensive_validation raw_data "raw" sa = (Return b, s1).

(** The one run of the driver, begun in [s], that ends in [s'] without an
    exit: each stage returned in the state the stage before had left, the
    transformed file was read back, and [load_data], called on that file
    with the driver's table and bound, returned [True]. *)
Definition successful_run {W} {EXT : Externals W} (file_id : option string)
    (table : string) (max_rows : Z) (skip : bool) (s s' : State W) : Prop :=
  exists raw_file s1 file s2 data b s3 s4,
    staged file_id skip
      (logged s [Msg Info "banner" []; Msg Info "ETL pipeline started" [];
                 Msg Info "banner" []]) raw_file s1 /\
    transform_data raw_file "transformed_dataset.csv"
      (logged s1 [Msg Info "2. TRANSFORMATION" []]) = (Return file, s2) /\
    read_csv file (world s2) = Ok data /\
    comprehensive_validation data "transformed" s2 = (Return b, s3) /\
    load_data file table max_rows (logged s3 [Msg Info "3. LOAD" []])
      = (Return true, s4) /\
    s' = logged s4 [Msg Info "banner" []; Msg Success "ETL PIPELINE FINISHED" [];
                    Msg Info "banner" []].

(** The two lines [validate_output_data] prints on a count that is not the
    expected one. *)
Definition mismatch_report (table : string) (expected n : Z) : list msg :=
  [Msg Info "rows in the table" [AStr table; AInt n];
   Msg Warning "expected rows, got rows" [AInt expected; AInt n]].

(** ** Scenarios *)

(** A world with nothing in it and no sink. *)
Definition nowhere : MemWorld := mkWorld ∅ ∅ false ∅.

(** A frame with a header and no record. *)
Definition header_only : DataFrame := mkFrame ["Name"] [].

(** A transformed frame whose year column was not coerced: it holds text. *)
Definition year_as_text : DataFrame := mkFrame ["year_of_release"] [[CStr "tbd"]].

(** A frame with one of the six required columns, numeric. *)
Definition sales_only : DataFrame :=
  mkFrame ["name"; "global_sales"]
          [[CStr "Wii Sports"; CNum (NFloat (8253 # 100))];
           [CStr "Tetris"; CNull]].

(** Raw records as [pd.read_csv] keeps them when a column has text in it. *)
Definition games_raw : DataFrame :=
  mkFrame ["Name"; "Year_of_Release"; "User_Score"]
          [[CStr "Wii Sports"; CStr "2006"; CStr "8"];
           [CStr "Tetris"; CStr "N/A"; CStr "tbd"]].

(** A year column with an unparsable text and an infinity. *)
Definition year_with_infinity : DataFrame :=
  mkFrame ["Name"; "Year_of_Release"]
          [[CStr "Tetris"; CStr "tbd"];
           [CStr "Pong"; CNum (NInf false)]].

(** A credential store whose table [access] has no row. *)
Definition empty_store : MemWorld :=
  mkWorld {[ "creds.db" := CredentialDb (mkFrame ["url"; "port"; "user"; "pass"] []) ]}
          ∅ true ∅.

(** [n] records, numbered from 0. *)
Definition numbered (n : nat) : DataFrame :=
  mkFrame ["rank"] ((fun k => [CNum (NInt (Z.of_nat k))]) <$> seq 0 n).

(** A handle, for runs that start with the connection set up. *)
Definition some_engine : engine :=
  mkEngine (CStr "etl") (CStr "secret") (CStr "localhost") (CNum (NInt 5432)) "homeworks".

(** A world whose sink is up and empty. *)
Definition sink_only : MemWorld := mkWorld ∅ ∅ true ∅.

(** The credential store with one row, and the transformed file with 50
    records; the sink is up. *)
Definition credentials : DataFrame :=
  mkFrame ["url"; "port"; "user"; "pass"]
          [[CStr "localhost"; CNum (NInt 5432); CStr "etl"; CStr "secret"]].

Definition ready_to_load : MemWorld :=
  mkWorld {[ "creds.db" := CredentialDb credentials;
             "data/processed/transformed_dataset.csv" := CsvFile (numbered 50) ]}
          ∅ true ∅.

(** A sink whose table games holds one record. *)
Definition one_in_sink : MemWorld := mkWorld ∅ ∅ true {[ "games" := numbered 1 ]}.

(** A file on Google Drive with one column, none of the expected ones; the
    credential store and the sink are in order. *)
Definition name_only : DataFrame := mkFrame ["Name"] [[CStr "Mario"]].

Definition drive_names : MemWorld :=
  mkWorld {[ "creds.db" := CredentialDb credentials ]}
          {[ "https://drive.google.com/uc?id=1kk5pYKqE--lqhxEAfqsks3QVpK-LP-Ta"
               := name_only ]}
          true ∅.

(** A file on Google Drive whose year column is headed year_of_release, in
    lower case, and holds text in one record. *)
Definition lowercase_header : DataFrame :=
  mkFrame ["name"; "year_of_release"] [[CStr "Mario"; CStr "1985"];
                                       [CStr "Zelda"; CStr "tbd"]].

Definition drive_lowercase : MemWorld :=
  mkWorld {[ "creds.db" := CredentialDb credentials ]}
          {[ "https://drive.google.com/uc?id=1kk5pYKqE--lqhxEAfqsks3QVpK-LP-Ta"
               := lowercase_header ]}
          true ∅.


(** The transformed frame of [sales_raw]. *)
Definition sales_transformed : DataFrame :=
  mkFrame ["name"; "year_of_release"; "na_sales"; "eu_sales"; "jp_sales";
           "other_sales"; "global_sales"]
          [[CStr "Wii Sports"; CNum (NInt 2006); CNum (NFloat (4136 # 100));
            CNum (NFloat (2896 # 100)); CNum (NFloat (377 # 100));
            CNum (NFloat (845 # 100)); CNum (NFloat (8253 # 100))];
           [CStr "Tetris"; CNum (NInt 0); CNum (NFloat (232 # 10));
            CNum (NFloat (226 # 100)); CNum (NFloat (422 # 100));
            CNum (NFloat (58 # 100)); CNull]].

(** The credential store is in place and the sink is down. *)
Definition sink_down : MemWorld :=
  mkWorld {[ "creds.db" := CredentialDb credentials ]} ∅ false ∅.

(** The transformed file is in place; there is no credential store. *)
Definition no_credentials : MemWorld :=
  mkWorld {[ "data/processed/transformed_dataset.csv" := CsvFile (numbered 50) ]}
          ∅ true ∅.

(** The labels of the frame that the query on the credential store gives. *)
Definition access_labels : list string := ["url"; "port"; "user"; "pass"].

(** The world that a successful [load_data] leaves on the in-memory sink:
    the table replaced by the head of the data, the directory made, the
    Parquet file written. *)
Definition loaded (table : string) (max_rows : Z) (data : DataFrame)
    (w : MemWorld) : MemWorld :=
  with_file "data/processed/processed_data.parquet" (ParquetFile data)
    (fst (@mkdir _ faithful "data/processed"
            (with_table table (head max_rows data) w))).

(** The in-memory world with a disk that refuses writes: a directory can be
    "made" only if it exists, and no file can be written. *)
Definition denied : exception := ExternalError "PermissionError".

Definition read_only_disk : Externals MemWorld := {|
  path_exists := @path_exists _ faithful;
  mkdir p w := (w, if bool_decide (is_Some (files w !! p)) then Ok tt else Err denied);
  gdown_download := @gdown_download _ faithful;
  read_csv := @read_csv _ faithful;
  to_csv df p w := (w, Err denied);
  to_parquet df p w := (w, Err denied);
  parse_number := parse_integer;
  sqlite_read_access := @sqlite_read_access _ faithful;
  create_engine := @create_engine _ faithful;
  engine_connect := @engine_connect _ faithful;
  to_sql_replace := @to_sql_replace _ faithful;
  read_sql_count := @read_sql_count _ faithful;
  read_sql_sample := @read_sql_sample _ faithful
|}.

(** A world in which the directory data/processed exists. *)
Definition with_processed_dir : MemWorld :=
  with_file "data/processed" Directory sink_only.

(** * Properties *)

(** Unfolds the monad and runs what can be run. *)
Ltac run_m :=
  repeat (progress
    (unfold mbind, M_bind, mret, M_ret, bind, ret, print, raise, sys_exit,
       query, command, observe, try_except, of_result));
  cbn [world stdout fst snd].

Tactic Notation "run_m" "in" hyp(H) :=
  repeat (progress
    (unfold mbind, M_bind, mret, M_ret, bind, ret, print, raise, sys_exit,
       query, command, observe, try_except, of_result in H));
  cbn [world stdout fst snd] in H.

(** Closed decidable facts, by evaluation of their decision procedure. *)
Ltac decide_it := apply (bool_decide_unpack _); vm_compute; exact I.

(** ** Strings *)

Module PyStrFacts.
Import PyStr.

Ltac by_cases_on c :=
  destruct c as [[] [] [] [] [] [] [] []]; vm_compute; try reflexivity; try discriminate.

Lemma lower_char_idem c : lower_char (lower_char c) = lower_char c.
Proof. by_cases_on c. Qed.

Lemma norm_char_idem c : norm_char (norm_char c) = norm_char c.
Proof. by_cases_on c. Qed.

Lemma norm_char_not_space c : isspace c = false -> isspace (norm_char c) = false.
Proof. by_cases_on c. Qed.

Lemma norm_char_never_blank c : norm_char c <> " "%char.
Proof. by_cases_on c. Qed.

Lemma norm_char_not_upper c : isupper (norm_char c) = false.
Proof. by_cases_on c. Qed.

Lemma smap_smap f g s : smap g (smap f s) = smap (fun c => g (f c)) s.
Proof. induction s as [|c s IH]; simpl; [reflexivity | by rewrite IH]. Qed.

Lemma smap_ext f g s : (forall c, f c = g c) -> smap f s = smap g s.
Proof. intros E. induction s as [|c s IH]; simpl; [reflexivity | by rewrite E, IH]. Qed.

Lemma lstrip_length s : (String.length (lstrip s) <= String.length s)%nat.
Proof.
  induction s as [|c s IH]; simpl; [lia|].
  destruct (isspace c); simpl; lia.
Qed.

(** A string that [lstrip] leaves alone is empty or starts with a
    character that is not white space. *)
Lemma lstrip_fixed_head c s : lstrip (String c s) = String c s -> isspace c = false.
Proof.
  simpl. destruct (isspace c); [|reflexivity].
  intros E. pose proof (lstrip_length s) as L. rewrite E in L. simpl in L. lia.
Qed.

Lemma lstrip_idem s : lstrip (lstrip s) = lstrip s.
Proof.
  induction s as [|c s IH]; simpl; [reflexivity|].
  destruct (isspace c) eqn:E; [exact IH|]. simpl. by rewrite E.
Qed.

Lemma rstrip_fixed_tail c s : rstrip (String c s) = String c s ->
  (s = EmptyString /\ isspace c = false) \/ (s <> EmptyString /\ rstrip s = s).
Proof.
  simpl. destruct (rstrip s) as [|a r] eqn:E.
  - destruct (isspace c); [discriminate|]. intros [= <-]. by left.
  - intros [= <-]. right. split; [discriminate | reflexivity].
Qed.

Lemma rstrip_lstrip s : rstrip s = s -> rstrip (lstrip s) = lstrip s.
Proof.
  induction s as [|c s IH]; [reflexivity|].
  intros F. simpl lstrip. destruct (isspace c) eqn:E; [|exact F].
  apply rstrip_fixed_tail in F as [[_ F] | [_ F]]; [congruence | by apply IH].
Qed.

Lemma rstrip_idem s : rstrip (rstrip s) = rstrip s.
Proof.
  induction s as [|c s IH]; [reflexivity|].
  simpl. destruct (rstrip s) as [|a r] eqn:E.
  - destruct (isspace c) eqn:Ec; [reflexivity|]. simpl. by rewrite Ec.
  - change (rstrip (String c (String a r))) with
      (match rstrip (String a r) with
       | EmptyString => if isspace c then EmptyString else String c EmptyString
       | r' => String c r'
       end).
    rewrite IH. reflexivity.
Qed.

Lemma strip_trimmed s : trimmed (strip s).
Proof.
  unfold trimmed, strip. split; [apply lstrip_idem|].
  apply rstrip_lstrip, rstrip_idem.
Qed.

Lemma trimmed_strip s : trimmed s -> strip s = s.
Proof. intros [L R]. unfold strip. by rewrite R, L. Qed.

Lemma smap_eq_empty f s : smap f s = EmptyString -> s = EmptyString.
Proof. destruct s; [reflexivity | discriminate]. Qed.

Lemma smap_rstrip_fixed s :
  rstrip s = s -> rstrip (smap norm_char s) = smap norm_char s.
Proof.
  induction s as [|c s IH]; [reflexivity|].
  intros F. apply rstrip_fixed_tail in F as [[-> Ec] | [Ne F]].
  - simpl. by rewrite (norm_char_not_space _ Ec).
  - specialize (IH F). simpl. rewrite IH.
    destruct (smap norm_char s) eqn:E; [|reflexivity].
    apply smap_eq_empty in E. contradiction.
Qed.

Lemma smap_trimmed s : trimmed s -> trimmed (smap norm_char s).
Proof.
  intros [L R]. split; [|by apply smap_rstrip_fixed].
  destruct s as [|c s]; [reflexivity|].
  apply lstrip_fixed_head in L. simpl.
  by rewrite (norm_char_not_space _ L).
Qed.

End PyStrFacts.

Section Facts.

Context {W : Type} {EXT : Externals W}.

(** ** transform.py: column names *)

Lemma normalize_name_smap col :
  normalize_name col = PyStr.smap PyStr.norm_char (PyStr.strip col).
Proof. unfold normalize_name, PyStr.replace, PyStr.lower. by rewrite PyStrFacts.smap_smap. Qed.

Lemma normalize_name_trimmed col : PyStr.trimmed (normalize_name col).
Proof.
  rewrite normalize_name_smap.
  apply PyStrFacts.smap_trimmed, PyStrFacts.strip_trimmed.
Qed.

Lemma normalize_name_idem col :
  normalize_name (normalize_name col) = normalize_name col.
Proof.
  rewrite (normalize_name_smap (normalize_name col)).
  rewrite (PyStrFacts.trimmed_strip _ (normalize_name_trimmed col)).
  rewrite normalize_name_smap, PyStrFacts.smap_smap.
  apply PyStrFacts.smap_ext, PyStrFacts.norm_char_idem.
Qed.

(** The characters of a normalized name: no space, no upper-case letter. *)
Lemma normalize_name_chars col c :
  c ∈ list_ascii_of_string (normalize_name col) ->
  c <> " "%char /\ PyStr.isupper c = false.
Proof.
  rewrite normalize_name_smap. generalize (PyStr.strip col). intros t.
  induction t as [|a t IH]; simpl.
  - by intros ?%not_elem_of_nil.
  - intros [->|Hin]%elem_of_cons; [|by apply IH].
    split; [apply PyStrFacts.norm_char_never_blank | apply PyStrFacts.norm_char_not_upper].
Qed.

(** C4.  [normalize_column_names] is idempotent on the column names: it
    returns the frame whose every label is stripped, lower-cased and has
    its spaces replaced by underscores (so the labels are trimmed and hold
    no space and no upper-case letter), and applied to its own result it
    returns the same labels. *)
Theorem normalize_column_names_idempotent (df : DataFrame) (s : State W) :
  exists df1 s1 df2 s2,
    normalize_column_names df s = (Return df1, s1) /\
    normalize_column_names df1 s1 = (Return df2, s2) /\
    columns df1 =
      (fun col => PyStr.replace " " "_" (PyStr.lower (PyStr.strip col)))
        <$> columns df /\
    Forall (fun col => PyStr.trimmed col /\
                       forall c, c ∈ list_ascii_of_string col ->
                                 c <> " "%char /\ PyStr.isupper c = false)
           (columns df1) /\
    columns df2 = columns df1.
Proof.
  eexists _, _, _, _. split; [reflexivity|]. split; [reflexivity|].
  split; [reflexivity|]. simpl. split.
  - apply Forall_fmap, Forall_true. intros col. simpl. split.
    + apply normalize_name_trimmed.
    + apply normalize_name_chars.
  - rewrite <- list_fmap_compose. apply list_fmap_ext.
    intros i col _. apply normalize_name_idem.
Qed.

(** ** Running computations *)

Lemma bind_Return {A B} (m : M W A) (k : A -> M W B) s a s' :
  m s = (Return a, s') -> bind m k s = k a s'.
Proof. unfold bind. by intros ->. Qed.

Lemma bind_Raise {A B} (m : M W A) (k : A -> M W B) s r s' :
  m s = (Raise r, s') -> bind m k s = (Raise r, s').
Proof. unfold bind. by intros ->. Qed.

Lemma bind_inv_Return {A B} (m : M W A) (k : A -> M W B) s b s2 :
  bind m k s = (Return b, s2) ->
  exists a s1, m s = (Return a, s1) /\ k a s1 = (Return b, s2).
Proof.
  unfold bind. destruct (m s) as [[a|r] s1]; [eauto | discriminate].
Qed.

Lemma print_run l key args (s : State W) :
  print l key args s = (Return tt, mkState (world s) (stdout s ++ [Msg l key args])).
Proof. reflexivity. Qed.

Lemma print_issues_run issues (s : State W) :
  print_issues issues s =
    (Return tt, mkState (world s) (stdout s ++ (issue_line <$> issues))).
Proof.
  revert s. induction issues as [|i issues IH]; intros s.
  - simpl. unfold mret, M_ret, ret. rewrite app_nil_r. by destruct s.
  - simpl. unfold mbind, M_bind. erewrite bind_Return by apply print_run.
    rewrite IH. simpl. rewrite <- app_assoc. by destruct i.
Qed.

(** ** validate.py *)

Lemma validate_schema_run df (s : State W) :
  let missing := filter (fun col => col ∉ columns df) required_columns in
  validate_schema df s =
    if nonempty missing
    then (Return false,
          mkState (world s)
            (stdout s ++ [Msg Error "schema validation: columns are missing" [ACols missing]]))
    else (Return true,
          mkState (world s) (stdout s ++ [Msg Success "schema validation passed" []])).
Proof. unfold validate_schema. simpl. by destruct (nonempty _). Qed.

Lemma validate_schema_missing df (s : State W) col :
  col ∈ required_columns -> col ∉ columns df ->
  fst (validate_schema df s) = Return false.
Proof.
  intros Hin Hmiss. rewrite validate_schema_run. simpl.
  assert (Hf : col ∈ filter (fun col => col ∉ columns df) required_columns)
    by (apply list_elem_of_filter; done).
  destruct (filter _ required_columns); [by apply not_elem_of_nil in Hf | done].
Qed.

Lemma mask_ok (k : Z) (cells : list cell) :
  forallb (fun c => negb (is_text c)) cells = true ->
  exists mask, mapM (fun c => cell_lt c k) cells = Ok mask.
Proof.
  induction cells as [|c cells IH]; simpl; [by eexists|].
  intros [Hc Hs]%andb_true_iff. destruct (IH Hs) as [mask ->].
  destruct c; try discriminate; by eexists.
Qed.

Lemma null_issue_ok df col :
  clean_key_column col df = true -> exists l, null_issue df col = Ok l.
Proof.
  unfold clean_key_column, null_issue. destruct (has_column col df); [|by eexists].
  destruct (series col df); [by eexists | discriminate].
Qed.

Lemma count_below_ok df col k :
  has_column col df = true -> clean_key_column col df = true ->
  exists n, count_below col k df = Ok n.
Proof.
  unfold clean_key_column, count_below. intros ->.
  destruct (series col df) as [cells|]; [|discriminate].
  intros Hc. destruct (mask_ok k cells Hc) as [mask ->]. by eexists.
Qed.

(** [validate_data_quality] on a frame whose key columns can be compared:
    it reports and returns [True]. *)
Lemma validate_data_quality_true df (s : State W) :
  quality_checkable df = true ->
  exists out, validate_data_quality df s =
                (Return true, mkState (world s) (stdout s ++ out)).
Proof.
  unfold quality_checkable, key_columns. simpl.
  intros [Hy [Hg _]%andb_true_iff]%andb_true_iff.
  unfold validate_data_quality.
  destruct (null_issue_ok _ _ Hy) as [ly Ely], (null_issue_ok _ _ Hg) as [lg Elg].
  assert (exists l0, null_issues df key_columns = Ok l0) as [l0 ->]
    by (simpl; rewrite Ely, Elg; by eexists).
  assert (exists l1, (if has_column "year_of_release" df
                      then invalid_years <- of_result (count_below "year_of_release" 1950 df);
                           mret (if 0 <? invalid_years
                                 then (l0 ++ [YearsBefore1950 invalid_years])%list
                                 else l0)
                      else mret l0) s = (Return l1, s)) as [l1 E1].
  { destruct (has_column "year_of_release" df) eqn:Hc; [|by eexists].
    destruct (count_below_ok df _ 1950 Hc Hy) as [n ->]. by eexists. }
  assert (exists l2, (if has_column "global_sales" df
                      then negative_sales <- of_result (count_below "global_sales" 0 df);
                           mret (if 0 <? negative_sales
                                 then (l1 ++ [NegativeSales negative_sales])%list
                                 else l1)
                      else mret l1) s = (Return l2, s)) as [l2 E2].
  { destruct (has_column "global_sales" df) eqn:Hc; [|by eexists].
    destruct (count_below_ok df _ 0 Hc Hg) as [n ->]. by eexists. }
  simpl of_result. unfold ret at 1.
  rewrite (bind_Return _ _ s l0 s) by reflexivity.
  rewrite (bind_Return _ _ s l1 s E1).
  rewrite (bind_Return _ _ s l2 s E2).
  destruct (nonempty l2).
  - unfold mbind, M_bind.
    erewrite bind_Return; last first.
    { erewrite bind_Return by apply print_run. apply print_issues_run. }
    simpl. rewrite <- app_assoc. by eexists.
  - unfold mbind, M_bind. erewrite bind_Return by apply print_run. by eexists.
Qed.

(** Whatever the frame, [validate_data_quality] does not return [False]. *)
Lemma validate_data_quality_not_false df (s : State W) b :
  fst (validate_data_quality df s) = Return b -> b = true.
Proof.
  unfold validate_data_quality. intros H.
  destruct (bind _ _ s) as [o s4] eqn:E. simpl in H. subst o.
  apply bind_inv_Return in E as (l0 & s1 & _ & E).
  apply bind_inv_Return in E as (l1 & s2 & _ & E).
  apply bind_inv_Return in E as (l2 & s3 & _ & E).
  unfold mbind, M_bind in E.
  apply bind_inv_Return in E as (u & s5 & _ & E).
  by injection E as <- _.
Qed.

Lemma mask_err (k : Z) (cells : list cell) :
  forallb (fun c => negb (is_text c)) cells = false ->
  mapM (fun c => cell_lt c k) cells = Err TypeError.
Proof.
  induction cells as [|c cells IH]; simpl; [discriminate|].
  destruct c as [n|txt|]; simpl; [|reflexivity|]; intros Hs; by rewrite (IH Hs).
Qed.

Lemma count_below_text df col k cells :
  series col df = Some cells ->
  forallb (fun c => negb (is_text c)) cells = false ->
  count_below col k df = Err TypeError.
Proof. unfold count_below. intros -> Ht. by rewrite (mask_err k cells Ht). Qed.

Lemma null_issues_keys df :
  null_issues df key_columns =
    match null_issue df "year_of_release", null_issue df "global_sales" with
    | Ok a, Ok b => Ok (a ++ (b ++ []))%list
    | Err e, _ | Ok _, Err e => Err e
    end.
Proof.
  unfold key_columns. cbn [null_issues].
  destruct (null_issue df "year_of_release"); [|reflexivity].
  by destruct (null_issue df "global_sales").
Qed.

(** On the other frames [validate_data_quality] raises: [ValueError] on a
    repeated key label, [TypeError] on text in a key column. *)
Lemma validate_data_quality_raises_otherwise df (s : State W) :
  quality_checkable df = false ->
  exists e, validate_data_quality df s = (Raise (Exc e), s).
Proof.
  unfold quality_checkable, key_columns. cbn [forallb]. rewrite andb_true_r.
  intros Hq. unfold validate_data_quality. rewrite null_issues_keys.
  unfold null_issue. unfold clean_key_column in Hq.
  destruct (has_column "year_of_release" df) eqn:Hy.
  - destruct (series "year_of_release" df) as [ys|] eqn:Eys; [|by eexists].
    destruct (forallb (fun c => negb (is_text c)) ys) eqn:Hty.
    + cbn [andb] in Hq.
      destruct (has_column "global_sales" df) eqn:Hg; [|discriminate].
      destruct (series "global_sales" df) as [gs|] eqn:Egs; [|by eexists].
      destruct (count_below_ok df "year_of_release" 1950 Hy) as [n En].
      { unfold clean_key_column. by rewrite Hy, Eys. }
      rewrite (count_below_text df "global_sales" 0 gs Egs Hq).
      rewrite En. by eexists.
    + rewrite (count_below_text df "year_of_release" 1950 ys Eys Hty).
      destruct (has_column "global_sales" df); [|by eexists].
      destruct (series "global_sales" df); by eexists.
  - cbn [andb] in Hq.
    destruct (has_column "global_sales" df) eqn:Hg; [|discriminate].
    destruct (series "global_sales" df) as [gs|] eqn:Egs; [|by eexists].
    rewrite (count_below_text df "global_sales" 0 gs Egs Hq). by eexists.
Qed.

(** C2.  On an empty frame [comprehensive_validation] prints the stage and
    the error and returns [False], whatever the stage (so for each of raw,
    transformed and output). *)
Theorem comprehensive_validation_empty (df : DataFrame) (stage : string) (s : State W) :
  empty df = true ->
  comprehensive_validation df stage s =
    (Return false,
     mkState (world s)
       (stdout s ++ [Msg Info "validation at stage" [AStr stage];
                     Msg Error "DataFrame is empty" []])).
Proof.
  intros He. unfold comprehensive_validation, mbind, M_bind.
  erewrite bind_Return by apply print_run. rewrite He.
  erewrite bind_Return by apply print_run.
  simpl. by rewrite <- app_assoc.
Qed.

Lemma raw_stage_skips_schema : bool_decide ("raw" ∈ ["transformed"; "output"]) = false.
Proof. by vm_compute. Qed.

(** At the raw stage the outcome of [comprehensive_validation] on a frame
    that is not empty is that of [validate_data_quality]. *)
Lemma comprehensive_validation_raw_quality (df : DataFrame) (s : State W) :
  empty df = false ->
  fst (comprehensive_validation df "raw" s) =
  fst (validate_data_quality df
         (mkState (world s)
            (stdout s ++ [Msg Info "validation at stage" [AStr "raw"];
                          Msg Info "data: rows, columns"
                              [AInt (len df); AInt (Z.of_nat (length (columns df)))]]))).
Proof.
  intros He. unfold comprehensive_validation, mbind, M_bind.
  erewrite bind_Return by apply print_run. rewrite He.
  erewrite bind_Return by apply print_run.
  rewrite raw_stage_skips_schema.
  erewrite bind_Return by reflexivity.
  change (negb true) with false. cbv iota. cbn [world stdout].
  rewrite <- app_assoc. cbn [app].
  unfold bind at 1.
  destruct (validate_data_quality df _) as [[[]|r] s1]; reflexivity.
Qed.

(** C10, as amended.  For a frame that is not empty, at the raw stage
    [comprehensive_validation] returns [True] when the key columns can be
    compared (each of year_of_release and global_sales absent, or labelled
    once and free of text), and it returns [False] for no frame. *)
Theorem comprehensive_validation_raw (df : DataFrame) (s : State W) :
  empty df = false ->
  (quality_checkable df = true ->
   fst (comprehensive_validation df "raw" s) = Return true) /\
  (forall b, fst (comprehensive_validation df "raw" s) = Return b -> b = true).
Proof.
  intros He. rewrite (comprehensive_validation_raw_quality df s He). split.
  - intros Hq.
    match goal with
    | |- fst (validate_data_quality df ?st) = _ =>
        by destruct (validate_data_quality_true df st Hq) as [out ->]
    end.
  - intros b. apply validate_data_quality_not_false.
Qed.

(** C3, as amended.  A frame that lacks one of the six required columns
    fails [validate_schema]; [validate_data_quality] returns [True] on every
    frame whose key columns can be compared, and [False] on none. *)
Theorem validate_schema_quality_asymmetry (df : DataFrame) (s : State W) :
  (forall col, col ∈ required_columns -> col ∉ columns df ->
     fst (validate_schema df s) = Return false) /\
  (quality_checkable df = true -> fst (validate_data_quality df s) = Return true) /\
  (forall b, fst (validate_data_quality df s) = Return b -> b = true).
Proof.
  split; [|split].
  - intros col. apply validate_schema_missing.
  - intros Hq. by destruct (validate_data_quality_true df s Hq) as [out ->].
  - intros b. apply validate_data_quality_not_false.
Qed.

End Facts.

(** Witness of C2: a frame with a header and no record, at the output stage. *)
Lemma comprehensive_validation_empty_witness :
  comprehensive_validation (EXT := faithful) header_only "output" (start nowhere) =
    (Return false,
     mkState nowhere [Msg Info "validation at stage" [AStr "output"];
                      Msg Error "DataFrame is empty" []]).
Proof.
  exact (comprehensive_validation_empty (EXT := faithful) header_only "output"
           (start nowhere) eq_refl).
Defined.

(** C10 as stated fails: a frame that is not empty, on which the raw-stage
    validation raises [TypeError] where the claim has it return [True]. *)
Lemma comprehensive_validation_raw_raises :
  ~ (forall df : DataFrame, empty df = false ->
       fst (comprehensive_validation (EXT := faithful) df "raw" (start nowhere))
       = Return true).
Proof. intros H. specialize (H year_as_text eq_refl). vm_compute in H. discriminate. Qed.

(** Witness of C10 as amended. *)
Lemma comprehensive_validation_raw_witness :
  fst (comprehensive_validation (EXT := faithful) sales_only "raw" (start nowhere))
  = Return true.
Proof.
  exact (proj1 (comprehensive_validation_raw (EXT := faithful) sales_only
                  (start nowhere) eq_refl) eq_refl).
Defined.

(** C3 as stated fails: the frame lacks five required columns, and
    [validate_data_quality] raises [TypeError] on it. *)
Lemma validate_data_quality_raises :
  ~ (forall df : DataFrame,
       (exists col, col ∈ required_columns /\ col ∉ columns df) ->
       fst (validate_schema df (start nowhere)) = Return false /\
       fst (validate_data_quality df (start nowhere)) = Return true).
Proof.
  intros H. destruct (H year_as_text) as [_ H2].
  - exists "na_sales". split; decide_it.
  - vm_compute in H2. discriminate.
Qed.

(** Witness of C3 as amended: na_sales is missing, global_sales is numeric. *)
Lemma validate_schema_quality_asymmetry_witness :
  fst (validate_schema sales_only (start nowhere)) = Return false /\
  fst (validate_data_quality sales_only (start nowhere)) = Return true.
Proof.
  pose proof (validate_schema_quality_asymmetry sales_only
                (start nowhere)) as (Hs & Hq & _).
  split; [|exact (Hq eq_refl)].
  apply (Hs "na_sales"); decide_it.
Defined.

Section ExtractFacts.

Context {W : Type} {EXT : Externals W}.

(** C9.  [validate_raw_data] never raises.  It returns [False], with an
    error line on the console, exactly when the file cannot be read or the
    frame read is empty; on any other file it returns [True], prints no error
    line, and reports the expected columns that are absent in one warning. *)
Theorem validate_raw_data_never_raises (file_path : string) (s : State W) :
  exists b out,
    validate_raw_data file_path s = (Return b, mkState (world s) (stdout s ++ out)) /\
    b = negb (raw_unusable file_path (world s)) /\
    (b = false -> exists m, m ∈ out /\ msg_level m = Error) /\
    (b = true ->
       Forall (fun m => msg_level m <> Error) out /\
       forall df col,
         read_csv file_path (world s) = Ok df ->
         col ∈ expected_columns -> col ∉ columns df ->
         exists cols,
           col ∈ cols /\ Msg Warning "columns are missing" [ACols cols] ∈ out).
Proof.
  unfold validate_raw_data, raw_unusable. run_m.
  destruct (read_csv file_path (world s)) as [df|e] eqn:Er.
  - destruct (empty df) eqn:He.
    + eexists false, _. split; [reflexivity|]. split; [reflexivity|].
      split; [|discriminate]. intros _. eexists. split; [apply list_elem_of_here | reflexivity].
    + set (missing := filter (fun col => col ∉ columns df) expected_columns).
      destruct (nonempty missing) eqn:Hn.
      * eexists true, _. split.
        { cbn [world stdout]. repeat rewrite <- app_assoc. reflexivity. }
        split; [reflexivity|]. split; [discriminate|]. intros _. split.
        { repeat (constructor; [discriminate|]). constructor. }
        intros df' col [= <-] Hin Hmiss. exists missing. split.
        { apply list_elem_of_filter. done. }
        apply list_elem_of_here.
      * eexists true, _. split.
        { cbn [world stdout]. repeat rewrite <- app_assoc. reflexivity. }
        split; [reflexivity|]. split; [discriminate|]. intros _. split.
        { repeat (constructor; [discriminate|]). constructor. }
        intros df' col [= <-] Hin Hmiss.
        assert (Hf : col ∈ missing) by (apply list_elem_of_filter; done).
        destruct missing; [by apply not_elem_of_nil in Hf | discriminate].
  - eexists false, _. split; [reflexivity|]. split; [reflexivity|].
    split; [|discriminate]. intros _. eexists. split; [apply list_elem_of_here | reflexivity].
Qed.

End ExtractFacts.

Section TransformFacts.

Context {W : Type} {EXT : Externals W}.

Lemma to_numeric_of_numeric (x : option number) :
  to_numeric_coerce (of_numeric x) = x.
Proof. by destruct x. Qed.

Lemma positions_from_notin i col cols :
  col ∉ cols -> positions_from i col cols = [].
Proof.
  revert i. induction cols as [|c cols IH]; intros i Hn; [reflexivity|].
  apply not_elem_of_cons in Hn as [Hne Hn]. simpl.
  destruct (decide (c = col)); [congruence | by apply IH].
Qed.

(** Under pairwise distinct labels, a label that occurs has one position. *)
Lemma positions_from_unique i col cols :
  NoDup cols -> col ∈ cols ->
  exists j, positions_from i col cols = [(i + j)%nat] /\ cols !! j = Some col.
Proof.
  revert i. induction cols as [|c cols IH]; intros i Hd Hin.
  - by apply not_elem_of_nil in Hin.
  - apply NoDup_cons in Hd as [Hc Hd]. simpl.
    destruct (decide (c = col)) as [->|Hne].
    + exists 0%nat. rewrite (positions_from_notin _ _ _ Hc).
      by rewrite Nat.add_0_r.
    + apply elem_of_cons in Hin as [->|Hin]; [done|].
      destruct (IH (S i) Hd Hin) as (j & -> & Hj).
      exists (S j). split; [f_equal; lia | done].
Qed.

Lemma alter_on_labels f (labels : list string) col j0 (r : list cell) :
  NoDup labels -> labels !! j0 = Some col ->
  alter f j0 r = on_labels (fun l => bool_decide (l = col)) f labels r.
Proof.
  intros Hd Hj. apply list_eq. intros j. unfold on_labels.
  rewrite list_lookup_imap, list_lookup_alter.
  destruct (decide (j0 = j)) as [<-|Hne].
  - rewrite Hj. by rewrite bool_decide_eq_true_2.
  - destruct (labels !! j) as [l|] eqn:El; [|by destruct (r !! j)].
    rewrite bool_decide_eq_false_2; [by destruct (r !! j)|].
    intros ->. apply Hne. by eapply NoDup_lookup.
Qed.

Lemma on_labels_absent f (labels : list string) col (r : list cell) :
  col ∉ labels ->
  on_labels (fun l => bool_decide (l = col)) f labels r = r.
Proof.
  intros Hn. apply list_eq. intros j. unfold on_labels.
  rewrite list_lookup_imap.
  destruct (labels !! j) as [l|] eqn:El; [|by destruct (r !! j)].
  rewrite bool_decide_eq_false_2; [by destruct (r !! j)|].
  intros ->. apply Hn. apply list_elem_of_lookup. eauto.
Qed.

Lemma assign_series_spec f col df :
  NoDup (columns df) -> col ∈ columns df ->
  assign_series f col df =
    Ok {| columns := columns df;
          rows := on_labels (fun l => bool_decide (l = col)) f (columns df)
                    <$> rows df |}.
Proof.
  intros Hd Hin. unfold assign_series, positions.
  destruct (positions_from_unique 0 col _ Hd Hin) as (j & -> & Hj).
  unfold map_column. do 2 f_equal. apply list_fmap_ext.
  intros i r _. by apply alter_on_labels.
Qed.

Lemma coerce_column_spec df col :
  NoDup (columns df) ->
  coerce_column df col =
    Ok {| columns := columns df;
          rows := on_labels (fun l => bool_decide (l = col))
                    (fun c => of_numeric (to_numeric_coerce c)) (columns df)
                    <$> rows df |}.
Proof.
  intros Hd. unfold coerce_column, has_column. case_bool_decide as Hin.
  - by apply assign_series_spec.
  - destruct df as [cols rs]. simpl in *. do 2 f_equal.
    rewrite <- (list_fmap_id rs) at 1. apply list_fmap_ext.
    intros i r _. simpl. symmetry. by apply on_labels_absent.
Qed.

Lemma coerce_columns_spec (todo : list string) df :
  NoDup (columns df) ->
  coerce_columns todo df =
    Ok {| columns := columns df;
          rows := on_labels (fun l => bool_decide (l ∈ todo))
                    (fun c => of_numeric (to_numeric_coerce c)) (columns df)
                    <$> rows df |}.
Proof.
  revert df. induction todo as [|col todo IH]; intros df Hd.
  - destruct df as [cols rs]. simpl. do 2 f_equal.
    rewrite <- (list_fmap_id rs) at 1. apply list_fmap_ext.
    intros i r _. simpl. apply list_eq. intros j. unfold on_labels.
    rewrite list_lookup_imap.
    destruct (cols !! j) as [l|]; by destruct (r !! j).
  - simpl. rewrite (coerce_column_spec df col Hd). simpl.
    rewrite IH by exact Hd. simpl. do 2 f_equal.
    rewrite <- list_fmap_compose. apply list_fmap_ext.
    intros i r _. simpl. apply list_eq. intros j. unfold on_labels.
    rewrite !list_lookup_imap.
    destruct (columns df !! j) as [l|]; [|by destruct (r !! j)].
    destruct (r !! j) as [c|]; [simpl|reflexivity]. f_equal.
    destruct (decide (l = col)) as [->|Hne].
    + rewrite (bool_decide_eq_true_2 (col = col)) by reflexivity.
      rewrite (bool_decide_eq_true_2 (col ∈ col :: todo)) by apply list_elem_of_here.
      rewrite to_numeric_of_numeric. by case_bool_decide.
    + rewrite (bool_decide_eq_false_2 (l = col)) by exact Hne.
      rewrite (bool_decide_ext (l ∈ col :: todo) (l ∈ todo)); [reflexivity|].
      rewrite elem_of_cons. split; [intros [?|?]; [congruence | done] | by right].
Qed.

Lemma year_is_numeric : bool_decide ("Year_of_Release" ∈ numeric_columns) = true.
Proof. by vm_compute. Qed.

Lemma year_cell_of_numeric c : year_cell (of_numeric (to_numeric_coerce c)) = year_cell c.
Proof. unfold year_cell. by rewrite to_numeric_of_numeric. Qed.

Lemma is_infinite_of_numeric c :
  is_infinite (of_numeric (to_numeric_coerce c)) = is_infinite c.
Proof. unfold is_infinite. by rewrite to_numeric_of_numeric. Qed.

Lemma year_value_of_numeric c :
  year_value (of_numeric (to_numeric_coerce c)) = year_value c.
Proof.
  unfold year_value. by rewrite year_cell_of_numeric, to_numeric_of_numeric.
Qed.

(** The cast of one year cell raises exactly on an infinity. *)
Lemma year_cell_run c :
  year_cell c = if is_infinite c then Err ValueError else Ok (year_value c).
Proof.
  unfold year_value, year_cell, is_infinite.
  destruct (to_numeric_coerce c) as [[z|q|b]|]; reflexivity.
Qed.

Lemma cast_at_year j (r : list cell) :
  cast_at year_cell j r =
    if is_infinite (cell_at j r) then Err ValueError
    else Ok (alter year_value j r).
Proof.
  unfold cast_at, cell_at. destruct (r !! j) as [c|] eqn:E; simpl.
  - rewrite year_cell_run. destruct (is_infinite c); [reflexivity|]. f_equal.
    apply list_eq. intros k. rewrite list_lookup_alter, list_lookup_insert.
    destruct (decide (j = k)) as [<-|Hne].
    + rewrite E. simpl. apply lookup_lt_Some in E.
      by destruct (decide (j = j /\ (j < length r)%nat)) as [|[]].
    + by destruct (decide (j = k /\ (j < length r)%nat)) as [[]|].
  - f_equal. apply list_eq. intros k. rewrite list_lookup_alter.
    destruct (decide (j = k)) as [<-|]; [by rewrite E | reflexivity].
Qed.

Lemma cast_rows_year j (rs : list (list cell)) :
  cast_rows year_cell j rs =
    if forallb (fun r => negb (is_infinite (cell_at j r))) rs
    then Ok (alter year_value j <$> rs)
    else Err ValueError.
Proof.
  induction rs as [|r rs IH]; [reflexivity|].
  simpl. rewrite cast_at_year, IH.
  destruct (is_infinite (cell_at j r)); [reflexivity|]. simpl.
  by destruct (forallb _ rs).
Qed.

Lemma forallb_fmap {A B} (p : B -> bool) (g : A -> B) (l : list A) :
  forallb p (g <$> l) = forallb (fun a => p (g a)) l.
Proof. induction l as [|a l IH]; [reflexivity|]. simpl. f_equal. exact IH. Qed.

Lemma forallb_ext' {A} (p p' : A -> bool) (l : list A) :
  (forall a, p a = p' a) -> forallb p l = forallb p' l.
Proof. intros E. induction l as [|a l IH]; [reflexivity|]. simpl. by rewrite E, IH. Qed.

(** What the cast of the year column does to a frame with distinct labels
    that has the column. *)
Lemma assign_cast_year df :
  NoDup (columns df) -> "Year_of_Release" ∈ columns df ->
  assign_cast year_cell "Year_of_Release" df =
    if year_castable df
    then Ok {| columns := columns df;
               rows := on_labels (fun l => bool_decide (l = "Year_of_Release"))
                         year_value (columns df) <$> rows df |}
    else Err ValueError.
Proof.
  intros Hd Hin. unfold assign_cast, year_castable, series, positions.
  destruct (positions_from_unique 0 "Year_of_Release" _ Hd Hin) as (j & -> & Hj).
  rewrite Nat.add_0_l, cast_rows_year, forallb_fmap.
  destruct (forallb _ (rows df)); [|reflexivity].
  do 2 f_equal. apply list_fmap_ext. intros i r _. by apply alter_on_labels.
Qed.

(** The loop over the numeric columns does not change whether the year
    column can be cast. *)
Lemma year_castable_coerced df :
  NoDup (columns df) ->
  year_castable
    {| columns := columns df;
       rows := on_labels (fun l => bool_decide (l ∈ numeric_columns))
                 (fun c => of_numeric (to_numeric_coerce c)) (columns df)
                 <$> rows df |}
  = year_castable df.
Proof.
  intros Hd. unfold year_castable, series. cbn [columns rows].
  destruct (positions "Year_of_Release" (columns df)) as [|j [|j' js]] eqn:Ep;
    try reflexivity.
  rewrite !forallb_fmap. apply forallb_ext'. intros r. f_equal.
  assert (Hj : columns df !! j = Some "Year_of_Release").
  { destruct (decide ("Year_of_Release" ∈ columns df)) as [Hin|Hn].
    - unfold positions in Ep.
      destruct (positions_from_unique 0 "Year_of_Release" _ Hd Hin) as (j0 & E & Hj0).
      rewrite Nat.add_0_l in E. congruence.
    - unfold positions in Ep. by rewrite positions_from_notin in Ep. }
  unfold cell_at, on_labels. rewrite list_lookup_imap, Hj.
  destruct (r !! j) as [c|]; [|reflexivity]. simpl.
  apply is_infinite_of_numeric.
Qed.

(** What [transform_data_types] computes on a frame with pairwise distinct
    labels.  When no cell of the year column reads as an infinity it
    returns, and every cell is [coerced] under its label; otherwise the
    cast of the year column raises [ValueError] after the loop, before the
    second listing of the types. *)
Lemma transform_data_types_spec df (s : State W) :
  NoDup (columns df) ->
  transform_data_types df s =
    if year_castable df then
      (Return {| columns := columns df;
                 rows := coerced_row (columns df) <$> rows df |},
       mkState (world s)
         (stdout s ++
            [Msg Info "start of the type transformation" [];
             Msg Info "types before" [];
             Msg Info "dtypes" [AFrame df];
             Msg Info "types after" [];
             Msg Info "dtypes"
                 [AFrame {| columns := columns df;
                            rows := coerced_row (columns df) <$> rows df |}]]))
    else
      (Raise (Exc ValueError),
       mkState (world s)
         (stdout s ++
            [Msg Info "start of the type transformation" [];
             Msg Info "types before" [];
             Msg Info "dtypes" [AFrame df]])).
Proof.
  intros Hd. unfold transform_data_types.
  rewrite (coerce_columns_spec numeric_columns df Hd).
  set (df1 := {| columns := columns df; rows := _ |}).
  assert (E : (if has_column "Year_of_Release" df1
               then of_result (assign_cast year_cell "Year_of_Release" df1)
               else mret df1)
              = if year_castable df
                then ret (W := W) {| columns := columns df;
                                     rows := coerced_row (columns df) <$> rows df |}
                else raise ValueError).
  { assert (R : on_labels (fun l => bool_decide (l = "Year_of_Release")) year_value
                  (columns df) <$> rows df1
                = coerced_row (columns df) <$> rows df).
    { unfold df1. simpl. rewrite <- list_fmap_compose. apply list_fmap_ext.
      intros i r _. simpl. apply list_eq. intros j.
      unfold on_labels, coerced_row. rewrite !list_lookup_imap.
      destruct (columns df !! j) as [l|]; [|by destruct (r !! j)].
      destruct (r !! j) as [c|]; [simpl|reflexivity]. f_equal.
      unfold coerced. case_bool_decide as Hy; [|reflexivity].
      subst l. rewrite year_is_numeric. apply year_value_of_numeric. }
    unfold has_column. case_bool_decide as Hin.
    - rewrite assign_cast_year by done.
      unfold df1 at 1. rewrite (year_castable_coerced df Hd).
      destruct (year_castable df); [|reflexivity].
      change (columns df1) with (columns df). by rewrite R.
    - assert (C : year_castable df = true).
      { unfold year_castable, series, positions.
        by rewrite positions_from_notin. }
      rewrite C. unfold mret, M_ret. f_equal. rewrite <- R.
      change df1 with {| columns := columns df; rows := rows df1 |} at 1.
      f_equal. rewrite <- (list_fmap_id (rows df1)) at 1.
      apply list_fmap_ext. intros i r _. simpl. symmetry.
      by apply on_labels_absent. }
  unfold mbind, M_bind.
  do 3 (erewrite bind_Return by apply print_run).
  erewrite (bind_Return (of_result (Ok df1))) by reflexivity.
  rewrite E. destruct (year_castable df).
  - run_m. repeat rewrite <- app_assoc. reflexivity.
  - run_m. repeat rewrite <- app_assoc. reflexivity.
Qed.

Lemma transform_data_types_returns df (s : State W) :
  NoDup (columns df) -> year_castable df = true ->
  transform_data_types df s =
    (Return {| columns := columns df;
               rows := coerced_row (columns df) <$> rows df |},
     mkState (world s)
       (stdout s ++
          [Msg Info "start of the type transformation" [];
           Msg Info "types before" [];
           Msg Info "dtypes" [AFrame df];
           Msg Info "types after" [];
           Msg Info "dtypes"
               [AFrame {| columns := columns df;
                          rows := coerced_row (columns df) <$> rows df |}]])).
Proof. intros Hd Hc. by rewrite (transform_data_types_spec df s Hd), Hc. Qed.


Lemma transform_data_types_inv df (s : State W) df' s' :
  NoDup (columns df) ->
  transform_data_types df s = (Return df', s') ->
  year_castable df = true /\
  df' = {| columns := columns df; rows := coerced_row (columns df) <$> rows df |}.
Proof.
  intros Hd. rewrite (transform_data_types_spec df s Hd).
  destruct (year_castable df); [|discriminate].
  intros [= <- _]. by split.
Qed.


End TransformFacts.

(** Counterexample to C6 as stated: a frame whose year column holds an
    unparsable text and, in another record, an infinity.  The cast of the
    column to integers raises [ValueError]; the function does not return. *)
Lemma transform_data_types_infinite_year :
  NoDup (columns year_with_infinity) /\
  rows year_with_infinity !! 0%nat = Some [CStr "Tetris"; CStr "tbd"] /\
  @parse_number _ faithful "tbd" = None /\
  transform_data_types (EXT := faithful) year_with_infinity (start nowhere) =
    (Raise (Exc ValueError),
     mkState nowhere
       [Msg Info "start of the type transformation" [];
        Msg Info "types before" [];
        Msg Info "dtypes" [AFrame year_with_infinity]]).
Proof. split; [decide_it|]. repeat split. Qed.


Section LoadFacts.

Context {W : Type} {EXT : Externals W}.

Lemma nonempty_rows df : empty df = false -> exists r rs, rows df = r :: rs.
Proof.
  unfold empty. destruct (columns df); [discriminate|].
  destruct (rows df) as [|r rs]; [discriminate | eauto].
Qed.

(** C8, as amended.  [get_connection_params] never raises.  When the store
    cannot be read it prints the error and returns [None]; when the store has
    no row it returns the empty dictionary.  Both are false as a condition,
    and [setup_database_connection] then returns [False] with no engine set
    up. *)
Theorem get_connection_params_falsy (db_path : string) (s : State W) :
  (exists p s', get_connection_params db_path s = (Return p, s')) /\
  (forall w' e, sqlite_read_access db_path (world s) = (w', Err e) ->
     get_connection_params db_path s =
       (Return None,
        mkState w' (stdout s ++ [Msg Error "cannot get the parameters" [AExc e]]))) /\
  (forall w' result, sqlite_read_access db_path (world s) = (w', Ok result) ->
     empty result = true ->
     get_connection_params db_path s = (Return (Some ∅), mkState w' (stdout s))) /\
  (forall self database_name p s',
     get_connection_params "creds.db" s = (Return p, s') ->
     p = None \/ p = Some ∅ ->
     setup_database_connection self database_name s = (Return (false, self), s')).
Proof.
  split; [|split; [|split]].
  - unfold get_connection_params. run_m.
    destruct (sqlite_read_access db_path (world s)) as [w' [result|e]]; [|by eexists _, _].
    destruct (empty result) eqn:He; [by eexists _, _|]. simpl negb. cbv iota.
    destruct (nonempty_rows _ He) as (r & rs & ->). by eexists _, _.
  - intros w' e Hq. unfold get_connection_params. run_m. by rewrite Hq.
  - intros w' result Hq He. unfold get_connection_params. run_m.
    by rewrite Hq, He.
  - intros self database_name p s' Hrun Hp.
    unfold setup_database_connection. rewrite (bind_Return _ _ _ _ _ Hrun).
    by destruct Hp as [-> | ->].
Qed.

End LoadFacts.

(** C8 as stated fails: on a store without rows the function returns the
    empty dictionary, not [None]. *)
Lemma get_connection_params_empty_store :
  fst (get_connection_params (EXT := faithful) "creds.db" (start empty_store))
  <> Return None.
Proof. vm_compute. discriminate. Qed.

(** Witness of C8 as amended: the store without rows, and no store at all. *)
Lemma get_connection_params_falsy_witness :
  get_connection_params (EXT := faithful) "creds.db" (start empty_store)
    = (Return (Some ∅), start empty_store) /\
  get_connection_params (EXT := faithful) "creds.db" (start nowhere)
    = (Return None,
       mkState nowhere [Msg Error "cannot get the parameters" [AExc unavailable]]) /\
  setup_database_connection (EXT := faithful) (mkLoader None None) "homeworks"
      (start empty_store)
    = (Return (false, mkLoader None None), start empty_store).
Proof.
  pose proof (get_connection_params_falsy (EXT := faithful) "creds.db"
                (start empty_store)) as (_ & _ & Hempty & Hsetup).
  pose proof (get_connection_params_falsy (EXT := faithful) "creds.db"
                (start nowhere)) as (_ & Herr & _ & _).
  split; [exact (Hempty empty_store _ eq_refl eq_refl)|].
  split; [exact (Herr nowhere _ eq_refl)|].
  apply (Hsetup _ _ (Some ∅)); [|by right].
  exact (Hempty empty_store _ eq_refl eq_refl).
Defined.

(** ** load.py on the in-memory world *)

Lemma head_nonneg (n : Z) (df : DataFrame) :
  0 <= n ->
  head n df = mkFrame (columns df) (take (Z.to_nat (Z.min n (len df))) (rows df)).
Proof.
  intros Hn. unfold head, len. rewrite (proj2 (Z.leb_le 0 n) Hn). f_equal.
  destruct (Z.le_gt_cases n (Z.of_nat (length (rows df)))) as [Hle|Hgt].
  - by rewrite Z.min_l.
  - rewrite Z.min_r by lia. rewrite Nat2Z.id.
    rewrite !take_ge; [done | lia | lia].
Qed.

(** C5, as amended.  With a bound that is not negative, a connection set up
    and the sink up, [load_to_database] succeeds and the table then holds the
    first min(max_rows, len(data)) records of the data, in order;
    [save_to_parquet], run next as in [load_data], succeeds and the Parquet
    file holds the data whole, the table staying as written. *)
Theorem load_writes_head_parquet_keeps_all (eng : engine) (data : DataFrame)
    (table : string) (max_rows : Z) (s : State MemWorld) :
  0 <= max_rows -> sink_up (world s) = true ->
  exists s1 s2,
    load_to_database (EXT := faithful) (mkLoader (Some eng) None) data table max_rows s
      = (Return true, s1) /\
    tables (world s1) !! table =
      Some (mkFrame (columns data)
              (take (Z.to_nat (Z.min max_rows (len data))) (rows data))) /\
    save_to_parquet (EXT := faithful) (mkLoader (Some eng) None) data
        "processed_data.parquet" s1
      = (Return (Some "data/processed/processed_data.parquet"), s2) /\
    files (world s2) !! "data/processed/processed_data.parquet"
      = Some (ParquetFile data) /\
    tables (world s2) !! table = tables (world s1) !! table.
Proof.
  intros Hn Hup.
  exists (mkState (with_table table (head max_rows data) (world s))
            (stdout s ++ [Msg Info "data written to the table: rows"
                              [AStr table; AInt (len (head max_rows data))]])).
  eexists. split; [|split; [|split; [|split]]].
  - unfold load_to_database. cbn [loader_engine]. run_m.
    cbn [to_sql_replace faithful mem_externals]. by rewrite Hup.
  - cbn [world with_table tables]. rewrite lookup_insert_eq.
    by rewrite head_nonneg.
  - unfold save_to_parquet. run_m.
    cbn [mkdir to_parquet faithful mem_externals world stdout]. reflexivity.
  - cbn [world with_file files]. by rewrite lookup_insert_eq.
  - cbn [world with_file tables]. by case_bool_decide.
Qed.

(** C5 as stated fails for a negative bound: with [max_rows = -2] the table
    receives the first three of five records. *)
Lemma load_to_database_negative_bound :
  ~ (forall (max_rows : Z) (data : DataFrame) (s1 : State MemWorld),
       load_to_database (EXT := faithful) (mkLoader (Some some_engine) None) data
           "games" max_rows (start sink_only) = (Return true, s1) ->
       tables (world s1) !! "games" =
         Some (mkFrame (columns data)
                 (take (Z.to_nat (Z.min max_rows (len data))) (rows data)))).
Proof.
  intros H. specialize (H (-2) (numbered 5) _ eq_refl).
  vm_compute in H. discriminate.
Qed.

(** Witness of C5 as amended: 500 records and a bound of 100. *)
Lemma load_writes_head_parquet_keeps_all_witness :
  exists s1 s2,
    load_to_database (EXT := faithful) (mkLoader (Some some_engine) None)
        (numbered 500) "games" 100 (start sink_only) = (Return true, s1) /\
    tables (world s1) !! "games" = Some (numbered 100) /\
    save_to_parquet (EXT := faithful) (mkLoader (Some some_engine) None)
        (numbered 500) "processed_data.parquet" s1
      = (Return (Some "data/processed/processed_data.parquet"), s2) /\
    files (world s2) !! "data/processed/processed_data.parquet"
      = Some (ParquetFile (numbered 500)).
Proof.
  destruct (load_writes_head_parquet_keeps_all some_engine (numbered 500) "games"
              100 (start sink_only)) as (s1 & s2 & H1 & H2 & H3 & H4 & _);
    [lia | reflexivity |].
  exists s1, s2. split; [exact H1|]. split; [|split; [exact H3 | exact H4]].
  rewrite H2. reflexivity.
Defined.

Section VerifyFacts.

Context {W : Type} {EXT : Externals W}.

Lemma query_run {A} (q : W -> result A) (s : State W) a :
  q (world s) = Ok a -> query q s = (Return a, s).
Proof. unfold query. by intros ->. Qed.

Lemma validate_output_data_mismatch self eng table expected n (s : State W) :
  loader_engine self = Some eng ->
  read_sql_count eng table (world s) = Ok n ->
  expected <> 0 -> n <> expected ->
  validate_output_data self table (Some expected) s =
    (Return false, mkState (world s) (stdout s ++ mismatch_report table expected n)).
Proof.
  intros He Hc H0 Hne. unfold validate_output_data. rewrite He. run_m.
  rewrite Hc. cbn [truthy]. rewrite (proj2 (Z.eqb_neq expected 0) H0).
  rewrite bool_decide_eq_false_2 by congruence.
  cbn [negb andb world stdout default]. by rewrite <- app_assoc.
Qed.

(** C7, as amended.  [load_data] verifies the sink against the expected
    count min(max_rows, len(data)).  When that count is not 0 and the sink
    reports another one, [validate_output_data] prints the warning and
    returns [False], and [load_data] returns [False] in the world that the
    two writes left: nothing is undone. *)
Theorem load_data_count_mismatch (transformed_file table : string) (max_rows : Z)
    (s s1 s2 s3 : State W) (data : DataFrame) (loader : DataLoader)
    (eng : engine) (path : string) (n : Z) :
  read_csv transformed_file (world s) = Ok data ->
  setup_database_connection (mkLoader None None) "homeworks"
      (mkState (world s)
         (stdout s ++ [Msg Info "rows loaded for the database" [AInt (len data)]]))
    = (Return (true, loader), s1) ->
  load_to_database loader data table max_rows s1 = (Return true, s2) ->
  save_to_parquet loader data "processed_data.parquet" s2 = (Return (Some path), s3) ->
  path <> "" ->
  loader_engine loader = Some eng ->
  read_sql_count eng table (world s3) = Ok n ->
  Z.min max_rows (len data) <> 0 ->
  n <> Z.min max_rows (len data) ->
  validate_output_data loader table (Some (Z.min max_rows (len data))) s3
    = (Return false,
       mkState (world s3)
         (stdout s3 ++ mismatch_report table (Z.min max_rows (len data)) n)) /\
  load_data transformed_file table max_rows s
    = (Return false,
       mkState (world s3)
         (stdout s3 ++ mismatch_report table (Z.min max_rows (len data)) n)).
Proof.
  intros Hread Hsetup Hwrite Hsave Hpath Heng Hcount H0 Hne.
  pose proof (validate_output_data_mismatch loader eng table _ n s3
                Heng Hcount H0 Hne) as Hv.
  split; [exact Hv|].
  unfold load_data, mbind, M_bind.
  rewrite (bind_Return _ _ _ _ _ (query_run _ s data Hread)).
  erewrite bind_Return by apply print_run.
  rewrite (bind_Return _ _ _ _ _ Hsetup). cbn [negb].
  rewrite (bind_Return _ _ _ _ _ Hwrite). cbn [negb].
  rewrite (bind_Return _ _ _ _ _ Hsave).
  assert (Hp : path_truthy (Some path) = true).
  { cbn [path_truthy]. apply negb_true_iff, String.eqb_neq, Hpath. }
  rewrite Hp. cbn [negb].
  by rewrite (bind_Return _ _ _ _ _ Hv).
Qed.

(** The other branch: when the sink reports the expected count and the
    sample can be read, the verification and [load_data] return [True]. *)
Lemma load_data_count_match (transformed_file table : string) (max_rows : Z)
    (s s1 s2 s3 : State W) (data sample : DataFrame) (loader : DataLoader)
    (eng : engine) (path : string) :
  read_csv transformed_file (world s) = Ok data ->
  setup_database_connection (mkLoader None None) "homeworks"
      (mkState (world s)
         (stdout s ++ [Msg Info "rows loaded for the database" [AInt (len data)]]))
    = (Return (true, loader), s1) ->
  load_to_database loader data table max_rows s1 = (Return true, s2) ->
  save_to_parquet loader data "processed_data.parquet" s2 = (Return (Some path), s3) ->
  path <> "" ->
  loader_engine loader = Some eng ->
  read_sql_count eng table (world s3) = Ok (Z.min max_rows (len data)) ->
  read_sql_sample eng table (world s3) = Ok sample ->
  fst (load_data transformed_file table max_rows s) = Return true.
Proof.
  intros Hread Hsetup Hwrite Hsave Hpath Heng Hcount Hsample.
  unfold load_data, mbind, M_bind.
  rewrite (bind_Return _ _ _ _ _ (query_run _ s data Hread)).
  erewrite bind_Return by apply print_run.
  rewrite (bind_Return _ _ _ _ _ Hsetup). cbn [negb].
  rewrite (bind_Return _ _ _ _ _ Hwrite). cbn [negb].
  rewrite (bind_Return _ _ _ _ _ Hsave).
  assert (Hp : path_truthy (Some path) = true).
  { cbn [path_truthy]. apply negb_true_iff, String.eqb_neq, Hpath. }
  rewrite Hp. cbn [negb].
  unfold validate_output_data. rewrite Heng. run_m. rewrite Hcount.
  rewrite bool_decide_eq_true_2 by reflexivity. rewrite andb_false_r.
  cbn [world stdout]. by rewrite Hsample.
Qed.

End VerifyFacts.

(** C7 as stated fails for the expected count 0: the sink holds one record
    and the verification returns [True]. *)
Lemma validate_output_data_zero_expected :
  ~ (forall (expected n : Z) (w : MemWorld),
       @read_sql_count _ faithful some_engine "games" w = Ok n ->
       n <> expected ->
       fst (validate_output_data (EXT := faithful) (mkLoader (Some some_engine) None)
              "games" (Some expected) (start w)) = Return false).
Proof.
  intros H. specialize (H 0 1 one_in_sink eq_refl ltac:(lia)).
  vm_compute in H. discriminate.
Qed.

(** Witness of C7 as amended: 50 records, a bound of 100, and a sink that
    keeps 49 of them.  The load fails and the 49 records stay in the table. *)
Lemma load_data_count_mismatch_witness :
  exists s',
    load_data (EXT := lossy) "data/processed/transformed_dataset.csv" "games" 100
        (start ready_to_load) = (Return false, s') /\
    tables (world s') !! "games" = Some (numbered 49) /\
    Msg Warning "expected rows, got rows" [AInt 50; AInt 49] ∈ stdout s'.
Proof.
  eexists. split; [|split].
  - refine (proj2 (load_data_count_mismatch (EXT := lossy)
                     "data/processed/transformed_dataset.csv" "games" 100
                     (start ready_to_load) _ _ _ (numbered 50) _ _ _ 49
                     _ _ _ _ _ _ _ _ _)).
    + vm_compute. reflexivity.
    + vm_compute. reflexivity.
    + vm_compute. reflexivity.
    + vm_compute. reflexivity.
    + discriminate.
    + reflexivity.
    + vm_compute. reflexivity.
    + vm_compute. discriminate.
    + vm_compute. discriminate.
  - vm_compute. reflexivity.
  - cbn [stdout]. apply elem_of_app. right.
    apply list_elem_of_further. apply (list_elem_of_here (A := msg)).
Defined.

(** ** main.py *)

Section DriverFacts.

Context {W : Type} {EXT : Externals W}.

Lemma try_except_inv_Return {A} (body : M W A) handler (s : State W) a s' :
  try_except body handler s = (Return a, s') ->
  body s = (Return a, s') \/
  exists e s1, body s = (Raise (Exc e), s1) /\ handler e s1 = (Return a, s').
Proof.
  unfold try_except. destruct (body s) as [[b|[e|c]] s1]; intros H.
  - by left.
  - right. by exists e, s1.
  - discriminate.
Qed.

(** The driver returns exactly along its one successful path. *)
Lemma run_etl_pipeline_returns_after_load file_id table max_rows skip (s s' : State W) :
  run_etl_pipeline file_id table max_rows skip s = (Return tt, s') <->
  successful_run file_id table max_rows skip s s'.
Proof.
  unfold successful_run, staged, logged. split.
  - unfold run_etl_pipeline, mbind, M_bind. intros H.
    apply bind_inv_Return in H as (? & sa & Ha & H). injection Ha as <- <-.
    apply bind_inv_Return in H as (? & sb & Hb & H). injection Hb as <- <-.
    apply bind_inv_Return in H as (? & sc & Hc & H). injection Hc as <- <-.
    cbn [world stdout] in H. repeat rewrite <- app_assoc in H. cbn [app] in H.
    apply try_except_inv_Return in H as [H | (e & s1 & _ & H)];
      [|run_m in H; discriminate].
    apply bind_inv_Return in H as (raw_file & s1 & Hstage & H).
    apply bind_inv_Return in H as (? & s1' & Hp & H). injection Hp as <- <-.
    apply bind_inv_Return in H as (file & s2 & Ht & H).
    apply bind_inv_Return in H as (data & s2' & Hr & H).
    apply bind_inv_Return in H as (b & s3 & Hv & H).
    apply bind_inv_Return in H as (? & s3' & Hp & H). injection Hp as <- <-.
    apply bind_inv_Return in H as (success & s4 & Hload & H).
    destruct success; [|run_m in H; discriminate].
    unfold query in Hr.
    destruct (read_csv file (world s2)) as [d|e] eqn:Er; [|discriminate].
    injection Hr as -> <-.
    exists raw_file, s1, file, s2, data, b, s3, s4.
    split; [|split; [exact Ht|split; [exact Er|split; [exact Hv|split; [exact Hload|]]]]].
    + destruct skip.
      * cbv zeta in Hstage. run_m in Hstage.
        destruct (path_exists _ (world s)) eqn:Hp; [|discriminate].
        cbn [negb world stdout] in Hstage. injection Hstage as <- <-. done.
      * apply bind_inv_Return in Hstage as (? & sd & Hp & Hstage). injection Hp as <- <-.
        apply bind_inv_Return in Hstage as (raw & se & He & Hstage).
        apply bind_inv_Return in Hstage as (raw_data & se' & Hr & Hstage).
        apply bind_inv_Return in Hstage as (b0 & sf & Hv0 & Hstage).
        injection Hstage as <- <-.
        unfold query in Hr.
        destruct (read_csv raw (world se)) as [d|e] eqn:Er0; [|discriminate].
        injection Hr as -> <-.
        exists se, raw_data, b0. by rewrite Er0.
    + run_m in H. injection H as <-. cbn [world stdout].
      repeat rewrite <- app_assoc. reflexivity.
  - intros (raw_file & s1 & file & s2 & data & b & s3 & s4 &
            Hstage & Ht & Hr & Hv & Hload & ->).
    unfold run_etl_pipeline, mbind, M_bind.
    do 3 (erewrite bind_Return by apply print_run).
    cbn [world stdout]. repeat rewrite <- app_assoc. cbn [app].
    unfold try_except.
    erewrite bind_Return; last first.
    { destruct skip.
      - destruct Hstage as (-> & Hp & ->). cbv zeta. run_m. cbn [world] in Hp.
        rewrite Hp. reflexivity.
      - destruct Hstage as (sa & raw_data & b0 & He & Hr0 & Hv0).
        erewrite bind_Return by apply print_run.
        erewrite bind_Return by exact He.
        erewrite (bind_Return (query _)) by (apply query_run; exact Hr0).
        erewrite bind_Return by exact Hv0. reflexivity. }
    erewrite bind_Return by apply print_run.
    erewrite bind_Return by exact Ht.
    erewrite (bind_Return (query _)) by (apply query_run; exact Hr).
    erewrite bind_Return by exact Hv.
    erewrite bind_Return by apply print_run.
    erewrite bind_Return by exact Hload.
    run_m. repeat rewrite <- app_assoc. reflexivity.
Qed.

End DriverFacts.

(** Text in a key column reaches the validator through the pipeline: a
    downloaded file with the header year_of_release passes
    [validate_raw_data] (a warning for the expected columns), then the
    raw-stage validation raises [TypeError], which the driver turns into
    exit code 1 before anything is loaded. *)
Lemma run_etl_pipeline_text_year :
  let run := run_etl_pipeline (EXT := faithful) None "games" 100 false
               (start drive_lowercase) in
  exit_code (run_etl_pipeline (EXT := faithful) None "games" 100 false)
            (start drive_lowercase) = 1 /\
  last (stdout (snd run))
    = Some (Msg Error "critical error in the ETL pipeline" [AExc TypeError]) /\
  tables (world (snd run)) = ∅.
Proof. cbv zeta. split; [|split]; by vm_compute. Qed.

(** C1 fails on the code.  The run below downloads a file with the single
    column Name.  The validation of the transformed frame returns [False]
    (its error line is on the console), the driver drops that value and goes
    on to the load stage, and the process exits with code 0. *)
Theorem run_etl_pipeline_ignores_validation :
  let run := run_etl_pipeline (EXT := faithful) None "games" 100 false
               (start drive_names) in
  let transformed := mkFrame ["name"] [[CStr "Mario"]] in
  exit_code (run_etl_pipeline (EXT := faithful) None "games" 100 false)
            (start drive_names) = 0 /\
  @read_csv _ faithful "data/processed/transformed_dataset.csv" (world (snd run))
    = Ok transformed /\
  (forall s : State MemWorld,
     fst (comprehensive_validation (EXT := faithful) transformed "transformed" s)
     = Return false) /\
  Msg Error "schema validation: columns are missing" [ACols required_columns]
    ∈ stdout (snd run) /\
  tables (world (snd run)) !! "games" = Some transformed.
Proof.
  cbv zeta. split; [by vm_compute|]. split; [by vm_compute|]. split; [|split].
  - intros s. unfold comprehensive_validation. run_m. reflexivity.
  - apply list_elem_of_In. vm_compute. tauto.
  - by vm_compute.
Qed.

(** ** Who ends the process *)

Section ExitFacts.

Context {W : Type} {EXT : Externals W}.

Lemma no_exit_ret {A} (a : A) : no_exit (W := W) (ret a).
Proof. intros s c s'. unfold ret. congruence. Qed.

Lemma no_exit_bind {A B} (m : M W A) (k : A -> M W B) :
  no_exit m -> (forall a, no_exit (k a)) -> no_exit (bind m k).
Proof.
  intros Hm Hk s c s'. unfold bind.
  destruct (m s) as [[a|r] s1] eqn:E.
  - apply Hk.
  - intros H. apply (Hm s c s'). congruence.
Qed.

Lemma no_exit_print l key args : no_exit (W := W) (print l key args).
Proof. intros s c s'. unfold print. congruence. Qed.

Lemma no_exit_raise {A} e : no_exit (W := W) (A := A) (raise e).
Proof. intros s c s'. unfold raise. congruence. Qed.

Lemma no_exit_of_result {A} (r : result A) : no_exit (W := W) (of_result r).
Proof. destruct r; [apply no_exit_ret | apply no_exit_raise]. Qed.

Lemma no_exit_query {A} (q : W -> result A) : no_exit (query q).
Proof. intros s c s'. unfold query. apply no_exit_of_result. Qed.

Lemma no_exit_command {A} (cmd : W -> W * result A) : no_exit (command cmd).
Proof.
  intros s c s'. unfold command. destruct (cmd (world s)) as [w' r].
  apply no_exit_of_result.
Qed.

Lemma no_exit_observe {A} (f : W -> A) : no_exit (observe f).
Proof. intros s c s'. unfold observe. congruence. Qed.

Lemma no_exit_try_except {A} (body : M W A) handler :
  no_exit body -> (forall e, no_exit (handler e)) -> no_exit (try_except body handler).
Proof.
  intros Hb Hh s c s'. unfold try_except.
  destruct (body s) as [[a|[e|c']] s1] eqn:E.
  - congruence.
  - apply Hh.
  - intros _. by apply (Hb s c' s1).
Qed.

(** Solves [no_exit] goals by the structure of the program. *)
Ltac no_exit_step :=
  match goal with
  | |- no_exit (mbind _ _) => unfold mbind, M_bind
  | |- no_exit (mret _) => apply no_exit_ret
  | |- no_exit (bind _ _) => apply no_exit_bind; [|intros ?]
  | |- no_exit (ret _) => apply no_exit_ret
  | |- no_exit (print _ _ _) => apply no_exit_print
  | |- no_exit (raise _) => apply no_exit_raise
  | |- no_exit (of_result _) => apply no_exit_of_result
  | |- no_exit (query _) => apply no_exit_query
  | |- no_exit (command _) => apply no_exit_command
  | |- no_exit (observe _) => apply no_exit_observe
  | |- no_exit (try_except _ _) => apply no_exit_try_except; [|intros ?]
  | |- no_exit (if ?b then _ else _) => destruct b
  | |- no_exit (match ?x with _ => _ end) => destruct x
  | |- no_exit (let _ := _ in _) => cbv zeta
  | H : no_exit ?m |- no_exit ?m => exact H
  end.

Ltac no_exit_tac := repeat no_exit_step.

Lemma no_exit_download_dataset file_id output_file :
  no_exit (download_dataset file_id output_file).
Proof. unfold download_dataset. no_exit_tac. Qed.

Lemma no_exit_validate_raw_data file_path : no_exit (validate_raw_data file_path).
Proof. unfold validate_raw_data. no_exit_tac. Qed.

Lemma no_exit_extract_data file_id output_file :
  no_exit (extract_data file_id output_file).
Proof.
  unfold extract_data. cbv zeta.
  apply no_exit_bind; [apply no_exit_download_dataset | intros p].
  apply no_exit_bind; [apply no_exit_validate_raw_data | intros b].
  no_exit_tac.
Qed.

Lemma no_exit_transform_data input_file output_file :
  no_exit (transform_data input_file output_file).
Proof. unfold transform_data, transform_data_types, normalize_column_names. no_exit_tac. Qed.

Lemma no_exit_print_issues issues : no_exit (W := W) (print_issues issues).
Proof. induction issues as [|i issues IH]; simpl; no_exit_tac. Qed.

Lemma no_exit_validate_data_quality df : no_exit (W := W) (validate_data_quality df).
Proof.
  unfold validate_data_quality. pose proof no_exit_print_issues as Hp.
  no_exit_tac; apply Hp.
Qed.

Lemma no_exit_comprehensive_validation df stage :
  no_exit (comprehensive_validation df stage).
Proof.
  unfold comprehensive_validation, validate_schema, validate_output_files.
  pose proof (no_exit_validate_data_quality df) as Hq.
  no_exit_tac.
Qed.

Lemma no_exit_load_data transformed_file table max_rows :
  no_exit (load_data transformed_file table max_rows).
Proof.
  unfold load_data, setup_database_connection, get_connection_params, getitem,
    load_to_database, save_to_parquet, validate_output_data.
  no_exit_tac.
Qed.

Lemma bind_inv_exit {A B} (m : M W A) (k : A -> M W B) s c s' :
  no_exit m ->
  bind m k s = (Raise (SystemExit c), s') ->
  exists a s1, m s = (Return a, s1) /\ k a s1 = (Raise (SystemExit c), s').
Proof.
  intros Hm. unfold bind. destruct (m s) as [[a|r] s1] eqn:E; [eauto|].
  intros H. destruct (Hm s c s'). congruence.
Qed.

Lemma try_except_inv_exit {A} (body : M W A) handler s c s' :
  try_except body handler s = (Raise (SystemExit c), s') ->
  body s = (Raise (SystemExit c), s') \/
  exists e s1, body s = (Raise (Exc e), s1) /\
               handler e s1 = (Raise (SystemExit c), s').
Proof.
  unfold try_except. destruct (body s) as [[a|[e|c']] s1]; intros H.
  - discriminate.
  - right. by exists e, s1.
  - by left.
Qed.

Ltac no_exit_prog :=
  repeat first
    [ apply no_exit_extract_data
    | apply no_exit_transform_data
    | apply no_exit_comprehensive_validation
    | apply no_exit_load_data
    | no_exit_step ].

(** The only exit the driver takes is [sys.exit(1)]. *)
Lemma run_etl_pipeline_exit_1 file_id table max_rows skip (s s' : State W) c :
  run_etl_pipeline file_id table max_rows skip s = (Raise (SystemExit c), s') ->
  c = 1.
Proof.
  unfold run_etl_pipeline, mbind, M_bind. intros H.
  apply bind_inv_exit in H as (? & ? & _ & H); [|apply no_exit_print].
  apply bind_inv_exit in H as (? & ? & _ & H); [|apply no_exit_print].
  apply bind_inv_exit in H as (? & ? & _ & H); [|apply no_exit_print].
  apply try_except_inv_exit in H as [H | (e & s1 & _ & H)];
    [|run_m in H; congruence].
  apply bind_inv_exit in H as (raw_file & ? & _ & H); [|no_exit_prog].
  apply bind_inv_exit in H as (? & ? & _ & H); [|apply no_exit_print].
  apply bind_inv_exit in H as (file & ? & _ & H); [|no_exit_prog].
  apply bind_inv_exit in H as (? & ? & _ & H); [|apply no_exit_query].
  apply bind_inv_exit in H as (? & ? & _ & H); [|no_exit_prog].
  apply bind_inv_exit in H as (? & ? & _ & H); [|apply no_exit_print].
  apply bind_inv_exit in H as (success & s1 & _ & H); [|no_exit_prog].
  destruct success; run_m in H; congruence.
Qed.

(** X1.  The process ends with exit code 0 or 1, and with 0 exactly when
    this run went along the successful path: every stage of it returned in
    the state its predecessor had left, and its call of [load_data], on the
    transformed file it had just written and read back, returned [True];
    the state the run ends in is the one that call left, with the closing
    banner printed. *)
Theorem run_etl_pipeline_exit_code file_id table max_rows skip (s : State W) :
  (exit_code (run_etl_pipeline file_id table max_rows skip) s = 0 \/
   exit_code (run_etl_pipeline file_id table max_rows skip) s = 1) /\
  (exit_code (run_etl_pipeline file_id table max_rows skip) s = 0 <->
   successful_run file_id table max_rows skip s
     (snd (run_etl_pipeline file_id table max_rows skip s))) /\
  (forall s', successful_run file_id table max_rows skip s s' ->
     s' = snd (run_etl_pipeline file_id table max_rows skip s)).
Proof.
  pose proof (run_etl_pipeline_returns_after_load file_id table max_rows skip s) as R.
  unfold exit_code.
  destruct (run_etl_pipeline file_id table max_rows skip s) as [[[]|[e|c]] s'] eqn:E;
    cbn [fst snd].
  - split; [by left|]. split.
    + split; [intros _; by apply R | done].
    + intros s'' Hs. apply R in Hs. congruence.
  - split; [by right|]. split.
    + split; [discriminate | intros Hs; apply R in Hs; discriminate].
    + intros s'' Hs. apply R in Hs. discriminate.
  - apply run_etl_pipeline_exit_1 in E as Hc. subst c. split; [by right|]. split.
    + split; [discriminate | intros Hs; apply R in Hs; discriminate].
    + intros s'' Hs. apply R in Hs. discriminate.
Qed.

End ExitFacts.

(** ** Paths *)

Lemma split_slash_plain s : has_slash s = false -> split_slash s = [s].
Proof.
  induction s as [|c s IH]; [reflexivity|]. cbn [has_slash split_slash].
  destruct (Ascii.eqb c "/"); [discriminate|]. cbn [orb]. intros H.
  by rewrite (IH H).
Qed.

Lemma split_slash_app a b :
  has_slash a = false -> split_slash (a +:+ "/" +:+ b) = a :: split_slash b.
Proof.
  induction a as [|c a IH]; [reflexivity|]. cbn [has_slash].
  destruct (Ascii.eqb c "/") eqn:E; [discriminate|]. cbn [orb]. intros H.
  change (String c a +:+ "/" +:+ b) with (String c (a +:+ "/" +:+ b)).
  cbn [split_slash]. by rewrite E, (IH H).
Qed.

Lemma path_parts_plain (dir1 dir2 name : string) :
  has_slash dir1 = false -> has_slash dir2 = false -> has_slash name = false ->
  dir1 <> "" -> dir1 <> "." -> dir2 <> "" -> dir2 <> "." ->
  name <> "" -> name <> "." ->
  path_parts (dir1 +:+ "/" +:+ dir2 +:+ "/" +:+ name) = [dir1; dir2; name].
Proof.
  intros H1 H2 H3 ? ? ? ? ? ?. unfold path_parts.
  rewrite (split_slash_app dir1 _ H1), (split_slash_app dir2 _ H2),
    (split_slash_plain name H3).
  rewrite !filter_cons, filter_nil.
  repeat (destruct (decide _) as [|[]]; [|by split]). reflexivity.
Qed.

Lemma path_join_plain name :
  has_slash name = false -> name <> "" -> name <> "." ->
  path_join "data/raw" name = "data/raw/" +:+ name /\
  path_join "data/processed" name = "data/processed/" +:+ name.
Proof.
  intros Hs He Hd.
  assert (Hst : startswith_slash name = false).
  { destruct name as [|c n]; [reflexivity|]. cbn [has_slash startswith_slash] in *.
    by destruct (Ascii.eqb c "/"). }
  assert (J : forall dir2, has_slash dir2 = false -> dir2 <> "" -> dir2 <> "." ->
            path_str ("data" +:+ "/" +:+ dir2 +:+ "/" +:+ name)
            = "data" +:+ "/" +:+ dir2 +:+ "/" +:+ name).
  { intros dir2 H2 ? ?. unfold path_str.
    rewrite path_parts_plain by (done || reflexivity).
    by case_bool_decide. }
  unfold path_join, os_path_join. rewrite Hst. split.
  - exact (J "raw" eq_refl ltac:(discriminate) ltac:(discriminate)).
  - exact (J "processed" eq_refl ltac:(discriminate) ltac:(discriminate)).
Qed.

(** A plain file name lands in the directory; an absolute name replaces
    it; repeated slashes and [.] are dropped, [..] is kept; two leading
    slashes are kept apart from one and from three. *)
Lemma path_join_examples :
  path_join "data/raw" "raw_dataset.csv" = "data/raw/raw_dataset.csv" /\
  path_join "data/raw" "/tmp/x.csv" = "/tmp/x.csv" /\
  path_join "data/raw" "a//b/./c.csv" = "data/raw/a/b/c.csv" /\
  path_join "data/raw" "../x.csv" = "data/raw/../x.csv" /\
  path_join "data/raw" "" = "data/raw" /\
  path_join "data/raw" "//x.csv" = "//x.csv" /\
  path_join "data/raw" "///x.csv" = "/x.csv".
Proof. repeat split. Qed.

(** ** extract.py and the driver's first stage *)

Section FetchFacts.

Context {W : Type} {EXT : Externals W}.


(** X2.  With the extraction skipped and no staged raw file, the driver
    prints its banner and the error and exits with code 1; nothing is read,
    transformed or loaded, and the world is as it was. *)
Theorem run_etl_pipeline_skip_missing file_id table max_rows (s : State W) :
  path_exists "data/raw/raw_dataset.csv" (world s) = false ->
  run_etl_pipeline file_id table max_rows true s =
    (Raise (SystemExit 1),
     mkState (world s)
       (stdout s ++ [Msg Info "banner" []; Msg Info "ETL pipeline started" [];
                     Msg Info "banner" [];
                     Msg Error "critical error in the ETL pipeline"
                         [AExc FileNotFoundError]])).
Proof.
  intros Hp. unfold run_etl_pipeline. run_m. rewrite Hp. cbn [negb world stdout].
  repeat rewrite <- app_assoc. reflexivity.
Qed.

(** X3.  When the download leaves no file at the destination
    ([output_file] joined to data/raw as [pathlib] joins them),
    [extract_data] raises [FileNotFoundError] right after the download: the
    console holds the download line only, no validation was attempted. *)
Theorem extract_data_nothing_downloaded file_id output_file (s : State W) w1 w2 :
  let url := "https://drive.google.com/uc?id=" +:+ default default_file_id file_id in
  let output_path := path_join "data/raw" output_file in
  mkdir "data/raw" (world s) = (w1, Ok tt) ->
  gdown_download url output_path w1 = (w2, Ok tt) ->
  path_exists output_path w2 = false ->
  extract_data file_id output_file s =
    (Raise (Exc FileNotFoundError),
     mkState w2 (stdout s ++ [Msg Info "downloading from" [AStr url]])).
Proof.
  cbv zeta. intros Hm Hg Hp. unfold extract_data, download_dataset. run_m.
  rewrite Hm. cbn [world stdout]. rewrite Hg. cbn [world stdout]. by rewrite Hp.
Qed.


End FetchFacts.

(** Witness of X2. *)
Lemma run_etl_pipeline_skip_missing_witness :
  run_etl_pipeline (EXT := faithful) None "games" 100 true (start nowhere) =
    (Raise (SystemExit 1),
     mkState nowhere
       [Msg Info "banner" []; Msg Info "ETL pipeline started" [];
        Msg Info "banner" [];
        Msg Error "critical error in the ETL pipeline" [AExc FileNotFoundError]]).
Proof.
  exact (run_etl_pipeline_skip_missing (EXT := faithful) None "games" 100
           (start nowhere) eq_refl).
Defined.

(** Witness of X3: nothing on Google Drive under the address. *)
Lemma extract_data_nothing_downloaded_witness :
  extract_data (EXT := faithful) None "raw_dataset.csv" (start nowhere) =
    (Raise (Exc FileNotFoundError),
     mkState (with_file "data/raw" Directory nowhere)
       [Msg Info "downloading from"
            [AStr "https://drive.google.com/uc?id=1kk5pYKqE--lqhxEAfqsks3QVpK-LP-Ta"]]).
Proof.
  exact (extract_data_nothing_downloaded (EXT := faithful) None "raw_dataset.csv"
           (start nowhere) _ _ eq_refl eq_refl eq_refl).
Defined.


(** ** transform.py: what the coercion keeps *)

Section CoercionFacts.

Context {W : Type} {EXT : Externals W}.


Lemma year_value_idem c : year_value (year_value c) = year_value c.
Proof.
  unfold year_value, year_cell.
  by destruct (to_numeric_coerce c) as [[z|q|b]|].
Qed.

Lemma year_value_finite c : is_infinite c = false -> is_infinite (year_value c) = false.
Proof.
  unfold year_value, year_cell, is_infinite.
  by destruct (to_numeric_coerce c) as [[z|q|b]|].
Qed.




Lemma coerced_idem label c : coerced label (coerced label c) = coerced label c.
Proof.
  unfold coerced. case_bool_decide; [apply year_value_idem|].
  case_bool_decide; [|reflexivity]. by rewrite to_numeric_of_numeric.
Qed.

Lemma coerced_row_lookup labels r j :
  coerced_row labels r !! j =
    (fun c => match labels !! j with Some l => coerced l c | None => c end) <$> r !! j.
Proof. unfold coerced_row. apply list_lookup_imap. Qed.

Lemma coerced_row_idem labels r :
  coerced_row labels (coerced_row labels r) = coerced_row labels r.
Proof.
  apply list_eq. intros j. rewrite !coerced_row_lookup.
  destruct (r !! j) as [c|]; [simpl|reflexivity].
  destruct (labels !! j); [by rewrite coerced_idem | reflexivity].
Qed.

(** The result of [transform_data_types] can be cast again. *)
Lemma year_castable_result df :
  NoDup (columns df) -> year_castable df = true ->
  year_castable {| columns := columns df;
                   rows := coerced_row (columns df) <$> rows df |} = true.
Proof.
  intros Hd. unfold year_castable, series. cbn [columns rows].
  destruct (positions "Year_of_Release" (columns df)) as [|j [|j' js]] eqn:Ep;
    try reflexivity.
  assert (Hj : columns df !! j = Some "Year_of_Release").
  { destruct (decide ("Year_of_Release" ∈ columns df)) as [Hin|Hn].
    - unfold positions in Ep.
      destruct (positions_from_unique 0 "Year_of_Release" _ Hd Hin) as (j0 & E & Hj0).
      rewrite Nat.add_0_l in E. congruence.
    - unfold positions in Ep. by rewrite positions_from_notin in Ep. }
  rewrite !forallb_fmap, !forallb_forall. intros Hall r Hin.
  specialize (Hall r Hin). unfold cell_at in *.
  rewrite coerced_row_lookup, Hj.
  destruct (r !! j) as [c|]; [simpl in *|reflexivity].
  unfold coerced. rewrite bool_decide_eq_true_2 by reflexivity.
  apply negb_true_iff. apply year_value_finite. by apply negb_true_iff.
Qed.



(** X7.  [transform_data_types] is idempotent: run on a frame that it has
    returned, it returns that frame again. *)
Theorem transform_data_types_idempotent (df : DataFrame) (s : State W) df' s' :
  NoDup (columns df) ->
  transform_data_types df s = (Return df', s') ->
  exists s'', transform_data_types df' s' = (Return df', s'').
Proof.
  intros Hd E. apply transform_data_types_inv in E as [Hfin ->]; [|exact Hd].
  eexists. rewrite transform_data_types_returns;
    [|exact Hd | by apply year_castable_result].
  cbn [columns rows]. rewrite <- list_fmap_compose.
  rewrite (list_fmap_ext (coerced_row (columns df) ∘ coerced_row (columns df))
             (coerced_row (columns df)) (rows df)); [reflexivity|].
  intros i r _. simpl. apply coerced_row_idem.
Qed.

End CoercionFacts.



(** Witness of X7. *)
Lemma transform_data_types_idempotent_witness :
  exists df' s' s'',
    transform_data_types (EXT := faithful) games_raw (start nowhere) = (Return df', s') /\
    transform_data_types (EXT := faithful) df' s' = (Return df', s'').
Proof.
  destruct (transform_data_types (EXT := faithful) games_raw (start nowhere))
    as [[df'|e] s'] eqn:E; [|vm_compute in E; discriminate].
  destruct (transform_data_types_idempotent (EXT := faithful) games_raw
              (start nowhere) df' s' ltac:(decide_it) E) as [s'' H].
  by exists df', s', s''.
Defined.

(** ** validate.py: the stages *)

Section StageFacts.

Context {W : Type} {EXT : Externals W}.

Lemma filter_absent_nil (cols wanted : list string) :
  Forall (fun col => col ∈ cols) wanted ->
  filter (fun col => col ∉ cols) wanted = [].
Proof.
  induction 1 as [|col wanted Hin _ IH]; [reflexivity|].
  rewrite filter_cons. destruct (decide (col ∉ cols)); [contradiction | exact IH].
Qed.

Lemma nonempty_filter_missing (f : string -> bool) (l : list string) :
  nonempty (filter (fun p => negb (f p)) l) = negb (forallb f l).
Proof.
  induction l as [|p l IH]; [reflexivity|].
  rewrite filter_cons. cbn [forallb].
  destruct (decide (negb (f p))) as [H|H]; destruct (f p); simpl in *;
    try contradiction; try reflexivity; try exact IH.
Qed.

Lemma validate_output_files_run (s : State W) :
  exists out,
    validate_output_files s =
      (Return (forallb (fun p => path_exists p (world s)) files_to_check),
       mkState (world s) (stdout s ++ out)).
Proof.
  unfold validate_output_files. run_m.
  rewrite (nonempty_filter_missing (fun p => path_exists p (world s))).
  destruct (forallb _ files_to_check); by eexists.
Qed.

Lemma comprehensive_validation_pass (df : DataFrame) (stage : string)
    (s : State W) :
  empty df = false ->
  Forall (fun col => col ∈ columns df) required_columns ->
  quality_checkable df = true ->
  exists out,
    comprehensive_validation df stage s =
      (Return (if String.eqb stage "output"
               then forallb (fun p => path_exists p (world s)) files_to_check
               else true),
       mkState (world s) (stdout s ++ out)).
Proof.
  intros He Hreq Hq. unfold comprehensive_validation, mbind, M_bind.
  erewrite bind_Return by apply print_run. rewrite He.
  erewrite bind_Return by apply print_run.
  match goal with
  | |- context [bind (if ?b then validate_schema df else mret true) ?k ?st] =>
      assert (Hs : exists out1,
                 (if b then validate_schema df else mret true) st
                 = (Return true, mkState (world st) (stdout st ++ out1)))
  end.
  { destruct (bool_decide _).
    - rewrite validate_schema_run. cbv zeta.
      rewrite (filter_absent_nil _ _ Hreq). by eexists.
    - exists []. rewrite app_nil_r. reflexivity. }
  destruct Hs as [out1 Hs]. erewrite bind_Return by exact Hs. cbn [negb].
  match goal with
  | |- context [bind (validate_data_quality df) ?k ?st] =>
      destruct (validate_data_quality_true df st Hq) as [out2 Hv]
  end.
  erewrite bind_Return by exact Hv. cbn [negb world stdout].
  destruct (String.eqb stage "output").
  - match goal with
    | |- context [bind validate_output_files ?k ?st] =>
        destruct (validate_output_files_run st) as [out3 Hf]
    end.
    erewrite bind_Return by exact Hf. cbn [world].
    destruct (forallb _ files_to_check); cbn [negb]; run_m;
      repeat rewrite <- app_assoc; by eexists.
  - erewrite bind_Return by reflexivity. cbn [negb]. run_m.
    repeat rewrite <- app_assoc. by eexists.
Qed.

(** X8.  Take a frame that is not empty, has the six required columns, and
    whose key columns can be compared.  At every stage but output
    [comprehensive_validation] returns [True]; at the stage output it returns
    [True] exactly when the three output files exist.  It changes nothing
    but the console. *)
Theorem comprehensive_validation_checked (df : DataFrame) (stage : string)
    (s : State W) :
  empty df = false ->
  Forall (fun col => col ∈ columns df) required_columns ->
  quality_checkable df = true ->
  exists out,
    comprehensive_validation df stage s =
      (Return (if String.eqb stage "output"
               then forallb (fun p => path_exists p (world s)) files_to_check
               else true),
       mkState (world s) (stdout s ++ out)).
Proof. apply comprehensive_validation_pass. Qed.

(** X9.  At the stages transformed and output a frame that is not empty and
    lacks a required column makes [comprehensive_validation] return [False]
    right after the schema check: the quality check is not run (so it cannot
    raise), and the console holds the stage line, the size line and the
    schema error. *)
Theorem comprehensive_validation_schema_first (df : DataFrame) (stage col : string)
    (s : State W) :
  stage ∈ ["transformed"; "output"] ->
  empty df = false ->
  col ∈ required_columns -> col ∉ columns df ->
  comprehensive_validation df stage s =
    (Return false,
     mkState (world s)
       (stdout s ++
          [Msg Info "validation at stage" [AStr stage];
           Msg Info "data: rows, columns"
               [AInt (len df); AInt (Z.of_nat (length (columns df)))];
           Msg Error "schema validation: columns are missing"
               [ACols (filter (fun c => c ∉ columns df) required_columns)]])).
Proof.
  intros Hst He Hin Hmiss. unfold comprehensive_validation, mbind, M_bind.
  erewrite bind_Return by apply print_run. rewrite He.
  erewrite bind_Return by apply print_run.
  rewrite (bool_decide_eq_true_2 _ Hst).
  assert (Hn : nonempty (filter (fun c => c ∉ columns df) required_columns) = true).
  { assert (Hf : col ∈ filter (fun c => c ∉ columns df) required_columns)
      by (apply list_elem_of_filter; done).
    destruct (filter _ required_columns); [by apply not_elem_of_nil in Hf | done]. }
  rewrite (bind_Return (validate_schema df) _ _ false
             (mkState (world s)
                (stdout s ++
                   [Msg Info "validation at stage" [AStr stage];
                    Msg Info "data: rows, columns"
                        [AInt (len df); AInt (Z.of_nat (length (columns df)))];
                    Msg Error "schema validation: columns are missing"
                        [ACols (filter (fun c => c ∉ columns df) required_columns)]]))).
  - reflexivity.
  - rewrite validate_schema_run. cbv zeta. rewrite Hn. cbn [world stdout].
    by repeat rewrite <- app_assoc.
Qed.




End StageFacts.

(** Witness of X8: the transformed sales records at the stage output, with
    none of the three files in place. *)
Lemma comprehensive_validation_checked_witness :
  exists out,
    comprehensive_validation (EXT := faithful) sales_transformed "output" (start nowhere)
    = (Return false, mkState nowhere out).
Proof.
  destruct (comprehensive_validation_checked (EXT := faithful) sales_transformed
              "output" (start nowhere)) as [out Hrun];
    [reflexivity | decide_it | reflexivity |].
  exists out. exact Hrun.
Defined.

(** Witness of X9: the frame on which the raw stage raises returns [False]
    at the stage transformed. *)
Lemma comprehensive_validation_schema_first_witness :
  fst (comprehensive_validation (EXT := faithful) year_as_text "transformed"
         (start nowhere)) = Return false.
Proof.
  rewrite (comprehensive_validation_schema_first (EXT := faithful) year_as_text
             "transformed" "na_sales" (start nowhere));
    [reflexivity | decide_it | reflexivity | decide_it | decide_it].
Defined.


(** ** transform.py on the in-memory world *)

Lemma command_run {W A} (cmd : W -> W * result A) (s : State W) w' a :
  cmd (world s) = (w', Ok a) -> command cmd s = (Return a, mkState w' (stdout s)).
Proof. unfold command. by intros ->. Qed.



(** ** load.py: the connection *)

Section ConnectFacts.

Context {W : Type} {EXT : Externals W}.

Lemma not_params_lookup (d : gmap string cell) key v :
  d !! key = Some v -> not_params (Some d) = false.
Proof.
  intros Hk. unfold not_params. apply bool_decide_eq_false_2.
  intros ->. by rewrite lookup_empty in Hk.
Qed.

Lemma setup_database_connection_run self database_name (s s1 : State W)
    (d : gmap string cell) user pass url port eng w2 r :
  get_connection_params "creds.db" s = (Return (Some d), s1) ->
  d !! "user" = Some user -> d !! "pass" = Some pass ->
  d !! "url" = Some url -> d !! "port" = Some port ->
  create_engine (mkEngine user pass url port database_name) = Ok eng ->
  engine_connect eng (world s1) = (w2, r) ->
  exists out,
    setup_database_connection self database_name s =
      (Return (match r with Ok _ => true | Err _ => false end,
               mkLoader (Some eng) (loader_dataset self)),
       mkState w2 (stdout s1 ++ out)).
Proof.
  intros Hp Hu Hpa Hur Hpo Hce Hco. unfold setup_database_connection.
  rewrite (bind_Return _ _ _ _ _ Hp). rewrite (not_params_lookup d _ _ Hu).
  cbn [default id]. unfold getitem. rewrite Hu, Hpa, Hur, Hpo. run_m.
  rewrite Hce, Hco. cbn [world stdout]. destruct r as [[]|e]; by eexists.
Qed.

(** X12.  Once the credential store has given a row with the four keys and
    the engine is created, [setup_database_connection] returns the loader
    with that engine set, whether the connection probe succeeds or not; the
    flag it returns is the outcome of the probe. *)
Theorem setup_database_connection_probe self database_name (s s1 : State W)
    (d : gmap string cell) user pass url port eng w2 r :
  get_connection_params "creds.db" s = (Return (Some d), s1) ->
  d !! "user" = Some user -> d !! "pass" = Some pass ->
  d !! "url" = Some url -> d !! "port" = Some port ->
  create_engine (mkEngine user pass url port database_name) = Ok eng ->
  engine_connect eng (world s1) = (w2, r) ->
  exists out,
    setup_database_connection self database_name s =
      (Return (match r with Ok _ => true | Err _ => false end,
               mkLoader (Some eng) (loader_dataset self)),
       mkState w2 (stdout s1 ++ out)).
Proof. apply setup_database_connection_run. Qed.

(** X13.  When the credential store gives nothing ([None] or the empty
    dictionary), [load_data] returns [False] in the state that reading the
    store left: no connection is opened, nothing is written to the sink or
    to the Parquet file. *)
Theorem load_data_no_credentials (transformed_file table : string) (max_rows : Z)
    (s sp : State W) (data : DataFrame) p :
  read_csv transformed_file (world s) = Ok data ->
  get_connection_params "creds.db"
      (mkState (world s)
         (stdout s ++ [Msg Info "rows loaded for the database" [AInt (len data)]]))
    = (Return p, sp) ->
  p = None \/ p = Some ∅ ->
  load_data transformed_file table max_rows s = (Return false, sp).
Proof.
  intros Hread Hp Hnone. unfold load_data, mbind, M_bind.
  rewrite (bind_Return _ _ _ _ _ (query_run _ s data Hread)).
  erewrite bind_Return by apply print_run.
  rewrite (bind_Return (setup_database_connection _ _) _ _
             (false, mkLoader None None) sp); [reflexivity|].
  unfold setup_database_connection. rewrite (bind_Return _ _ _ _ _ Hp).
  by destruct Hnone as [-> | ->].
Qed.

End ConnectFacts.

(** Witness of X12: the sink is down, the probe fails, the engine is set. *)
Lemma setup_database_connection_probe_witness :
  exists out,
    setup_database_connection (EXT := faithful) (mkLoader None None) "homeworks"
        (start sink_down)
    = (Return (false, mkLoader (Some some_engine) None), mkState sink_down out).
Proof.
  destruct (setup_database_connection_probe (EXT := faithful) (mkLoader None None)
              "homeworks" (start sink_down)
              (mkState sink_down [Msg Info "connection parameters received" []])
              (to_dict ["url"; "port"; "user"; "pass"]
                 [CStr "localhost"; CNum (NInt 5432); CStr "etl"; CStr "secret"])
              (CStr "etl") (CStr "secret") (CStr "localhost") (CNum (NInt 5432))
              some_engine sink_down (Err unavailable)) as [out Hrun];
    [by vm_compute | by vm_compute | by vm_compute | by vm_compute | by vm_compute
    | reflexivity | reflexivity |].
  eexists. exact Hrun.
Defined.

(** Witness of X13: no credential store; the sink and the files stay. *)
Lemma load_data_no_credentials_witness :
  exists out,
    load_data (EXT := faithful) "data/processed/transformed_dataset.csv" "games" 100
        (start no_credentials)
    = (Return false, mkState no_credentials out).
Proof.
  eexists.
  refine (load_data_no_credentials (EXT := faithful)
            "data/processed/transformed_dataset.csv" "games" 100
            (start no_credentials) _ (numbered 50) None _ _ _).
  - by vm_compute.
  - unfold get_connection_params. run_m. reflexivity.
  - by left.
Defined.

(** ** load.py: a whole load on the in-memory world *)

Lemma access_dict (u p us pa : cell) :
  let d := to_dict access_labels [u; p; us; pa] in
  d !! "user" = Some us /\ d !! "pass" = Some pa /\
  d !! "url" = Some u /\ d !! "port" = Some p.
Proof. by vm_compute. Qed.

Section SinkFacts.

(** The in-memory world for any reading of numbers and any resolution of
    unquoted names, with a sink that keeps what it is given. *)
Variable parse : string -> option number.
Variable resolve : string -> option string.

Lemma get_connection_params_mem (st : State MemWorld) u p us pa rs :
  files (world st) !! "creds.db"
    = Some (CredentialDb (mkFrame access_labels ([u; p; us; pa] :: rs))) ->
  get_connection_params (EXT := mem_externals parse resolve id) "creds.db" st =
    (Return (Some (to_dict access_labels [u; p; us; pa])),
     mkState (world st)
       (stdout st ++ [Msg Info "connection parameters received" []])).
Proof.
  intros Hc. unfold get_connection_params. run_m.
  cbn [sqlite_read_access mem_externals]. by rewrite Hc.
Qed.

Lemma load_to_database_mem eng data table max_rows (st : State MemWorld) :
  sink_up (world st) = true ->
  load_to_database (EXT := mem_externals parse resolve id)
      (mkLoader (Some eng) None) data table max_rows st =
    (Return true,
     mkState (with_table table (head max_rows data) (world st))
       (stdout st ++ [Msg Info "data written to the table: rows"
                          [AStr table; AInt (len (head max_rows data))]])).
Proof.
  intros Hup. unfold load_to_database. cbn [loader_engine]. run_m.
  cbn [to_sql_replace mem_externals]. by rewrite Hup.
Qed.

Lemma save_to_parquet_mem loader data (st : State MemWorld) :
  save_to_parquet (EXT := mem_externals parse resolve id) loader data
      "processed_data.parquet" st =
    (Return (Some "data/processed/processed_data.parquet"),
     mkState (with_file "data/processed/processed_data.parquet" (ParquetFile data)
                (fst (@mkdir _ faithful "data/processed" (world st))))
       (stdout st ++ [Msg Info "data saved to Parquet"
                          [AStr "data/processed/processed_data.parquet"]])).
Proof.
  unfold save_to_parquet. run_m.
  cbn [mkdir to_parquet faithful mem_externals world stdout fst]. reflexivity.
Qed.

Lemma validate_output_data_mem eng table expected (st : State MemWorld) :
  exists out,
    validate_output_data (EXT := mem_externals parse resolve id)
        (mkLoader (Some eng) None) table (Some expected) st =
      (Return (match denoted resolve table (world st) with
               | Some df => negb (negb (expected =? 0)
                                  && negb (bool_decide (len df = expected)))
               | None => false
               end),
       mkState (world st) (stdout st ++ out)).
Proof.
  unfold validate_output_data. cbn [loader_engine]. run_m.
  cbn [read_sql_count read_sql_sample mem_externals truthy].
  destruct (denoted resolve table (world st)) as [df|] eqn:Ht; [|by eexists].
  cbn [world stdout].
  rewrite (bool_decide_ext (Some (len df) = Some expected) (len df = expected))
    by (split; congruence).
  destruct (negb (expected =? 0) && negb (bool_decide (len df = expected))).
  - cbn [negb world stdout]. repeat rewrite <- app_assoc. by eexists.
  - cbv beta iota. cbn [world stdout]. rewrite Ht. cbn [negb world stdout].
    repeat rewrite <- app_assoc. by eexists.
Qed.

Lemma loaded_table table max_rows data w :
  tables (loaded table max_rows data w) !! table = Some (head max_rows data).
Proof.
  unfold loaded. cbn [mkdir faithful mem_externals fst].
  case_bool_decide; unfold with_file, with_table; cbn [tables];
    by rewrite lookup_insert_eq.
Qed.

(** A whole [load_data] when the file, the credential row and the sink are
    in place: the writes happen, and the flag is the verification's. *)
Lemma load_data_mem_run (transformed_file table : string) (max_rows : Z)
    (s : State MemWorld) (data : DataFrame) u p us pa rs :
  files (world s) !! transformed_file = Some (CsvFile data) ->
  files (world s) !! "creds.db"
    = Some (CredentialDb (mkFrame access_labels ([u; p; us; pa] :: rs))) ->
  sink_up (world s) = true ->
  exists out,
    load_data (EXT := mem_externals parse resolve id) transformed_file table
        max_rows s =
      (Return (match denoted resolve table (loaded table max_rows data (world s)) with
               | Some df =>
                   negb (negb (Z.min max_rows (len data) =? 0)
                         && negb (bool_decide (len df = Z.min max_rows (len data))))
               | None => false
               end),
       mkState (loaded table max_rows data (world s)) (stdout s ++ out)).
Proof.
  intros Hf Hc Hup. unfold load_data, mbind, M_bind.
  erewrite (bind_Return (query _)); last first.
  { apply query_run. cbn [read_csv mem_externals]. by rewrite Hf. }
  erewrite bind_Return by apply print_run.
  destruct (access_dict u p us pa) as (Hu & Hpa & Hur & Hpo).
  edestruct (setup_database_connection_run (EXT := mem_externals parse resolve id)
               (mkLoader None None) "homeworks"
               (mkState (world s)
                  (stdout s ++ [Msg Info "rows loaded for the database"
                                    [AInt (len data)]]))) as [out1 Hsetup];
    [exact (get_connection_params_mem
              (mkState (world s)
                 (stdout s ++ [Msg Info "rows loaded for the database"
                                   [AInt (len data)]])) u p us pa rs Hc)
    | exact Hu | exact Hpa | exact Hur | exact Hpo | reflexivity
    | cbn [engine_connect mem_externals world]; rewrite Hup; reflexivity |].
  rewrite (bind_Return _ _ _ _ _ Hsetup). cbn [negb loader_dataset world stdout].
  erewrite bind_Return by (apply load_to_database_mem; exact Hup). cbn [negb].
  erewrite bind_Return by apply save_to_parquet_mem.
  cbn [path_truthy String.eqb Ascii.eqb negb world stdout].
  edestruct (validate_output_data_mem (mkEngine us pa u p "homeworks") table
               (Z.min max_rows (len data))) as [out2 Hv];
    rewrite (bind_Return _ _ _ _ _ Hv).
  cbn [world]. fold (loaded table max_rows data (world s)).
  destruct (denoted resolve table (loaded table max_rows data (world s))) as [df|];
    [destruct (negb (negb _ && negb _))|];
    cbn [negb world stdout]; run_m; repeat rewrite <- app_assoc; by eexists.
Qed.

End SinkFacts.


Lemma len_nonneg (df : DataFrame) : 0 <= len df.
Proof. unfold len. lia. Qed.


(** X15.  With the same world and a negative bound, [load_data] replaces
    the table by all records but the last [-max_rows], writes the Parquet
    file, and then returns [False]: the expected count min(max_rows,
    len(data)) is negative and no table has that many records. *)
Theorem load_data_negative_bound (transformed_file table : string) (max_rows : Z)
    (s : State MemWorld) (data : DataFrame) u p us pa rs :
  files (world s) !! transformed_file = Some (CsvFile data) ->
  files (world s) !! "creds.db"
    = Some (CredentialDb (mkFrame access_labels ([u; p; us; pa] :: rs))) ->
  sink_up (world s) = true ->
  max_rows < 0 ->
  exists s',
    load_data (EXT := faithful) transformed_file table max_rows s = (Return false, s') /\
    tables (world s') !! table =
      Some (mkFrame (columns data)
              (take (length (rows data) - Z.to_nat (- max_rows)) (rows data))) /\
    files (world s') !! "data/processed/processed_data.parquet"
      = Some (ParquetFile data).
Proof.
  intros Hf Hc Hup Hn.
  destruct (load_data_mem_run parse_integer Some transformed_file table max_rows s
              data u p us pa rs Hf Hc Hup) as [out Hrun].
  unfold denoted in Hrun. cbn [mbind option_bind] in Hrun.
  rewrite loaded_table in Hrun.
  pose proof (len_nonneg data) as Hl.
  pose proof (len_nonneg (head max_rows data)) as Hh.
  rewrite Z.min_l in Hrun by lia.
  rewrite (proj2 (Z.eqb_neq max_rows 0)) in Hrun by lia.
  rewrite bool_decide_eq_false_2 in Hrun by lia. cbn [negb andb] in Hrun.
  eexists. split; [exact Hrun|]. cbn [world]. split.
  - rewrite loaded_table. unfold head.
    by rewrite (proj2 (Z.leb_gt 0 max_rows) Hn).
  - unfold loaded, with_file. cbn [files]. by rewrite lookup_insert_eq.
Qed.


(** Witness of X15: 50 records and a bound of -2; 48 records are written. *)
Lemma load_data_negative_bound_witness :
  exists s',
    load_data (EXT := faithful) "data/processed/transformed_dataset.csv" "games" (-2)
        (start ready_to_load) = (Return false, s') /\
    tables (world s') !! "games" = Some (numbered 48).
Proof.
  destruct (load_data_negative_bound "data/processed/transformed_dataset.csv"
              "games" (-2) (start ready_to_load) (numbered 50)
              (CStr "localhost") (CNum (NInt 5432)) (CStr "etl") (CStr "secret") [])
    as (s' & Hrun & Ht & _); [by vm_compute | by vm_compute | reflexivity | lia |].
  exists s'. split; [exact Hrun|].
  refine (eq_trans Ht _). by vm_compute.
Defined.

(** ** load.py: failures of the two writes and of the verification *)

Section WriteFacts.

Context {W : Type} {EXT : Externals W}.

(** X16.  [load_to_database] and [validate_output_data] never raise,
    whatever the sink does, and without an engine each returns [False] after
    one console line, the world untouched. *)
Theorem sink_methods_never_raise (self : DataLoader) (data : DataFrame)
    (table : string) (max_rows : Z) (expected : option Z) (s : State W) :
  (exists b s', load_to_database self data table max_rows s = (Return b, s')) /\
  (exists b s', validate_output_data self table expected s = (Return b, s')) /\
  (loader_engine self = None ->
   load_to_database self data table max_rows s
     = (Return false,
        mkState (world s) (stdout s ++ [Msg Info "no database connection" []])) /\
   validate_output_data self table expected s
     = (Return false,
        mkState (world s) (stdout s ++ [Msg Info "no database connection" []]))).
Proof.
  unfold load_to_database, validate_output_data.
  destruct (loader_engine self) as [eng|]; split; try split.
  - run_m. destruct (to_sql_replace eng table _ (world s)) as [w' [[]|e]];
      by eexists _, _.
  - run_m. destruct (read_sql_count eng table (world s)) as [n|e]; [|by eexists _, _].
    destruct (truthy expected && _); [by eexists _, _|].
    cbv beta iota. cbn [world stdout].
    destruct (read_sql_sample eng table (world s)); by eexists _, _.
  - discriminate.
  - by eexists _, _.
  - by eexists _, _.
  - done.
Qed.

(** X17.  The two failures of [save_to_parquet] differ: when the directory
    cannot be made the exception leaves the method (the [mkdir] is outside
    its [try]); when the file cannot be written the method prints the error
    and returns [None]. *)
Theorem save_to_parquet_failures (self : DataLoader) (data : DataFrame)
    (filename : string) (s : State W) :
  (forall w1 e, mkdir "data/processed" (world s) = (w1, Err e) ->
     save_to_parquet self data filename s
       = (Raise (Exc e), mkState w1 (stdout s))) /\
  (forall w1 w2 e, mkdir "data/processed" (world s) = (w1, Ok tt) ->
     to_parquet data (path_join "data/processed" filename) w1 = (w2, Err e) ->
     save_to_parquet self data filename s
       = (Return None,
          mkState w2 (stdout s ++ [Msg Error "cannot save to Parquet" [AExc e]]))).
Proof.
  split.
  - intros w1 e Hm. unfold save_to_parquet. run_m. by rewrite Hm.
  - intros w1 w2 e Hm Hp. unfold save_to_parquet. run_m. rewrite Hm.
    cbn [world stdout]. by rewrite Hp.
Qed.

Lemma filter_absent_nil_inv (cols wanted : list string) :
  filter (fun col => col ∉ cols) wanted = [] ->
  Forall (fun col => col ∈ cols) wanted.
Proof.
  induction wanted as [|col wanted IH]; [constructor|].
  rewrite filter_cons. destruct (decide (col ∉ cols)) as [Hn|Hy]; [discriminate|].
  intros Hf. constructor; [|by apply IH].
  destruct (decide (col ∈ cols)); [done | contradiction].
Qed.

(** X18.  [validate_schema] never raises and changes nothing but the
    console; it returns [True] exactly when each of the six required columns
    is among the labels (other columns, and the order, do not matter). *)
Theorem validate_schema_iff (df : DataFrame) (s : State W) :
  exists b out,
    validate_schema df s = (Return b, mkState (world s) (stdout s ++ out)) /\
    (b = true <-> Forall (fun col => col ∈ columns df) required_columns).
Proof.
  rewrite validate_schema_run. cbv zeta.
  destruct (filter (fun col => col ∉ columns df) required_columns) as [|c l] eqn:Ef.
  - exists true. eexists. split; [reflexivity|].
    split; [intros _; by apply filter_absent_nil_inv | done].
  - exists false. eexists. split; [reflexivity|]. split; [discriminate|].
    intros Hall. apply filter_absent_nil in Hall. congruence.
Qed.

(** X19.  [validate_data_quality] returns [True] on the frames whose key
    columns can be compared, and raises on all the others, before it has
    printed anything. *)
Theorem validate_data_quality_outcome (df : DataFrame) (s : State W) :
  if quality_checkable df
  then exists out, validate_data_quality df s
                   = (Return true, mkState (world s) (stdout s ++ out))
  else exists e, validate_data_quality df s = (Raise (Exc e), s).
Proof.
  destruct (quality_checkable df) eqn:Hq.
  - by apply validate_data_quality_true.
  - by apply validate_data_quality_raises_otherwise.
Qed.

End WriteFacts.

(** Witness of X17: the disk refuses writes; without the directory the
    method raises, with it the method returns [None]. *)
Lemma save_to_parquet_failures_witness :
  save_to_parquet (EXT := read_only_disk) (mkLoader None None) (numbered 5)
      "processed_data.parquet" (start sink_only)
    = (Raise (Exc denied), start sink_only) /\
  save_to_parquet (EXT := read_only_disk) (mkLoader None None) (numbered 5)
      "processed_data.parquet" (start with_processed_dir)
    = (Return None,
       mkState with_processed_dir [Msg Error "cannot save to Parquet" [AExc denied]]).
Proof.
  split.
  - exact (proj1 (save_to_parquet_failures (EXT := read_only_disk) (mkLoader None None)
                    (numbered 5) "processed_data.parquet" (start sink_only))
                 sink_only denied eq_refl).
  - exact (proj2 (save_to_parquet_failures (EXT := read_only_disk) (mkLoader None None)
                    (numbered 5) "processed_data.parquet" (start with_processed_dir))
                 with_processed_dir with_processed_dir denied eq_refl eq_refl).
Defined.

(** ** transform.py: the raw contract becomes the transformed contract *)

Section ContractFacts.

Context {W : Type} {EXT : Externals W}.


End ContractFacts.
